(** * geosatpy: the raster geoprocessing module [geosatpy.py]

    A shallow embedding of the class [GeoProcess] of [geosatpy.py]
    (asArray, buildVRT, vrtToTiff, merge, tiling, resizing, save_tiff) and
    the properties of it that the specification states.

    The module orchestrates an external library (GDAL) and the filesystem.
    Both are modelled by a [World]: the files that exist, and the log of the
    calls made to the library and to [print], in the order they were made.
    Methods are computations in a state-and-exception monad over [World].

    The library is taken as it answers a well-formed request: a call that
    writes a file leaves that file. Where the module's own control flow turns
    on a library answer, the answer is modelled: [gdal.Open] giving [None],
    [GetRasterBand] out of range, the band writer's check of the array rank.

    The file has three parts: the embedding of the module, the vocabulary of
    the statements, and the properties with their proofs. *)

From stdpp Require Import gmap strings list pretty.
From Stdlib Require Import QArith.

Set Warnings "-register-all".
Open Scope string_scope.
Open Scope list_scope.
Open Scope Z_scope.

(** ** Python values *)

(** [gdal.GDT_Float32], [gdal.GDT_Float64], [gdal.GDT_UInt16],
    [gdal.GDT_Byte]: the four pixel types the module selects from. *)
Inductive GDALDataType := GDT_Byte | GDT_UInt16 | GDT_Float32 | GDT_Float64.

(** The values that travel through call frames and keyword arguments. *)
Inductive value :=
| VNone
| VBool (b : bool)
| VInt (n : Z)
| VReal (q : Q)
| VStr (s : string)
| VList (xs : list value)
| VType (t : GDALDataType).

Global Instance value_inhabited : Inhabited value := populate VNone.

(** [x is None] *)
Definition is_None (v : value) : bool :=
  match v with VNone => true | _ => false end.

(** Pixel values are only moved around by this module, never computed with. *)
Definition pixel := Z.

(** One band plane: [height] rows of [width] pixels. *)
Definition plane := list (list pixel).

(** A numpy array of rank 2 (rows of pixels) or rank 3 (a list along the first
    axis of rank-2 arrays), as nested lists along the axes in order. *)
Inductive ndarray :=
| Arr2 (a : list (list pixel))
| Arr3 (a : list (list (list pixel))).

(** [a.shape], read off the nested lists. *)
Definition shape (a : ndarray) : list Z :=
  match a with
  | Arr2 r => [Z.of_nat (length r); Z.of_nat (length (hd [] r))]
  | Arr3 r => [Z.of_nat (length r); Z.of_nat (length (hd [] r));
               Z.of_nat (length (hd [] (hd [] r)))]
  end.

(** ** Exceptions *)

Inductive exn :=
| TypeError_missing (fn : string) (params : list string)
| TypeError_excess (fn : string) (given : nat)
| TypeError (msg : string)
| AttributeError (obj attr : string)
| UnboundLocalError (var : string)
| ValueError (msg : string)
| FileNotFoundError (path : string).

Inductive result (A : Type) :=
| Ok (a : A)
| Exc (e : exn).
Arguments Ok {A} a.
Arguments Exc {A} e.

(** ** The world: files and the log of external calls *)

Record Band := mkBand {
  band_data : plane;
  band_nodata : option Q
}.

Record Dataset := mkDataset {
  RasterXSize : Z;
  RasterYSize : Z;
  raster_type : GDALDataType;
  raster_bands : list Band;
  GeoTransform : list Q;
  Projection : string
}.

Definition RasterCount (ds : Dataset) : Z := Z.of_nat (length (raster_bands ds)).

(** A call made to the outside: [print] of [fmt.format] applied to [args], or a library
    function with its positional and keyword arguments as written at the call
    site. *)
Inductive event :=
| EPrint (fmt : string) (args : list value)
| ECall (fn : string) (args : list value) (kwargs : list (string * value)).

(** A file is a raster the model can decode, or the product of a library call
    (a virtual mosaic, a translated or warped raster), whose content is the
    library's business and is kept as the call that produced it. *)
Inductive File :=
| FRaster (ds : Dataset)
| FProduct (by_call : event).

Record World := mkWorld {
  fs : gmap string File;
  log : list event
}.

(** ** The monad *)

Definition M (A : Type) : Type := World -> result A * World.

Definition ret {A} (a : A) : M A := fun w => (Ok a, w).
Definition raise {A} (e : exn) : M A := fun w => (Exc e, w).
Definition bind {A B} (m : M A) (k : A -> M B) : M B :=
  fun w => match m w with
           | (Ok a, w') => k a w'
           | (Exc e, w') => (Exc e, w')
           end.

Notation "x <- m ;; k" := (bind m (fun x => k))
  (at level 100, m at next level, right associativity).
Notation "m ;;; k" := (bind m (fun _ => k))
  (at level 100, right associativity).

Definition emit (e : event) : M unit :=
  fun w => (Ok tt, mkWorld (fs w) (log w ++ [e])).
Definition write_file (path : string) (f : File) : M unit :=
  fun w => (Ok tt, mkWorld (<[path := f]> (fs w)) (log w)).
Definition read_file (path : string) : M (option File) :=
  fun w => (Ok (fs w !! path), w).

(** A [for] loop over [xs] whose body updates the loop-carried variables [s]. *)
Fixpoint for_ {A S} (xs : list A) (body : A -> S -> M S) (s : S) : M S :=
  match xs with
  | [] => ret s
  | x :: xs' => s' <- body x s ;; for_ xs' body s'
  end.

(** Reading a local variable that an [if] chain may have left unassigned. *)
Definition use_local {A} (name : string) (v : option A) : M A :=
  match v with
  | Some a => ret a
  | None => raise (UnboundLocalError name)
  end.

(** ** Calling a function through its class attribute

    [GeoProcess.f(a1, ..., an)] calls the plain function [f]: the arguments
    fill the parameters from the first one on, [self] included; parameters
    left over take their defaults, and a parameter with neither is a
    [TypeError]. *)

Record pyfunc (A : Type) := mkFunc {
  fn_name : string;
  fn_params : list string;
  fn_defaults : list value;
  fn_body : list value -> M A
}.
Arguments fn_name {A} _.
Arguments fn_params {A} _.
Arguments fn_defaults {A} _.
Arguments fn_body {A} _ _.

Definition bind_args {A} (f : pyfunc A) (args : list value) : exn + list value :=
  let n := length args in
  let p := length (fn_params f) in
  let required := (p - length (fn_defaults f))%nat in
  if (p <? n)%nat then inl (TypeError_excess (fn_name f) n)
  else if (n <? required)%nat then
    inl (TypeError_missing (fn_name f) (take (required - n) (drop n (fn_params f))))
  else inr (args ++ drop (n - required) (fn_defaults f)).

Definition call {A} (f : pyfunc A) (args : list value) : M A :=
  match bind_args f args with
  | inl e => raise e
  | inr frame => fn_body f frame
  end.

(** ** The library and the filesystem *)

(** [gdal.Open(path, gdal.GA_ReadOnly)]: the dataset, or [None] when the path
    does not hold a raster; the library raises nothing. Only rasters are
    decoded: of a product of the library the model keeps that it exists, and no
    method reopens one that it has written. *)
Definition decode (f : option File) : option Dataset :=
  match f with
  | Some (FRaster ds) => Some ds
  | _ => None
  end.

Definition gdal_Open (path : string) : M (option Dataset) :=
  f <- read_file path ;; ret (decode f).

(** [data.ReadAsArray()]: rank 2 for one band, rank 3 with the band axis first
    for several. *)
Definition Dataset_ReadAsArray (ds : Dataset) : option ndarray :=
  match raster_bands ds with
  | [] => None
  | [b] => Some (Arr2 (band_data b))
  | bs => Some (Arr3 (map band_data bs))
  end.

(** [data.GetRasterBand(band)]: bands are numbered from 1; out of range the
    library returns [None]. *)
Definition GetRasterBand (ds : Dataset) (band : Z) : option Band :=
  if (1 <=? band) && (band <=? RasterCount ds)
  then raster_bands ds !! Z.to_nat (band - 1)
  else None.

(** [np.dstack(array)]: the items along the first axis, each made rank 3 by
    [atleast_3d], joined along the third axis. *)
Definition px (p : plane) (r c : nat) : pixel := nth c (nth r p []) 0.

Definition dstack (planes : list plane) : list (list (list pixel)) :=
  let p0 := hd [] planes in
  map (fun r => map (fun c => map (fun p => px p r c) planes)
                    (seq 0 (length (hd [] p0))))
      (seq 0 (length p0)).

Definition np_dstack (a : ndarray) : ndarray :=
  match a with
  | Arr3 planes => Arr3 (dstack planes)
  | Arr2 rows =>
      Arr3 [map (fun c => map (fun row => nth c row 0) rows)
                (seq 0 (length (hd [] rows)))]
  end.

(** ** GeoProcess.asArray *)

Definition asArray (path : string) (band : option Z) : M (option ndarray) :=
  data <- gdal_Open path ;;
  match data with
  | Some data =>
      let num_bands := RasterCount data in
      match band with
      | None =>
          if 1 <? num_bands then
            match Dataset_ReadAsArray data with
            | Some array => ret (Some (np_dstack array))
            | None => raise (TypeError "dstack of None")
            end
          else ret (Dataset_ReadAsArray data)
      | Some band =>
          match GetRasterBand data band with
          | Some b => ret (Some (Arr2 (band_data b)))
          | None => raise (AttributeError "NoneType" "ReadAsArray")
          end
      end
  | None =>
      emit (EPrint "No data in {}" [VStr path]) ;;; ret None
  end.

(** ** Library functions that write a file *)

(** A module-level library call is logged, and its output file then exists. *)
Definition library_call (fn : string) (args : list value)
    (kwargs : list (string * value)) (out : string) : M unit :=
  let e := ECall fn args kwargs in
  emit e ;;; write_file out (FProduct e).

Definition os_path_isfile (path : string) : M bool :=
  f <- read_file path ;; ret (bool_decide (is_Some f)).

Definition os_remove (path : string) : M unit :=
  f <- read_file path ;;
  match f with
  | Some _ =>
      fun w => (Ok tt, mkWorld (delete path (fs w))
                               (log w ++ [ECall "os.remove" [VStr path] []]))
  | None => raise (FileNotFoundError path)
  end.

(** ** GeoProcess.buildVRT, GeoProcess.vrtToTiff *)

Definition buildVRT (list_files : list string) (dst : string) : M unit :=
  library_call "gdal.BuildVRT" []
    [("destName", VStr dst);
     ("srcDSOrSrcDSTab", VList (VStr <$> list_files));
     ("allowProjectionDifference", VBool true)]
    dst.

Definition vrtToTiff (vrtFile dst : string) : M unit :=
  library_call "gdal.Translate" []
    [("destName", VStr dst); ("srcDS", VStr vrtFile); ("format", VStr "GTiff")]
    dst.

(** ** The methods as plain functions of the class

    Each [def] with its parameter list as written, [self] first. The body
    reads its typed arguments out of the frame. *)

Definition as_str (v : value) : M string :=
  match v with
  | VStr s => ret s
  | _ => raise (TypeError "not a string")
  end.

Fixpoint as_strs (vs : list value) : M (list string) :=
  match vs with
  | [] => ret []
  | v :: vs' => s <- as_str v ;; ss <- as_strs vs' ;; ret (s :: ss)
  end.

Definition as_str_list (v : value) : M (list string) :=
  match v with
  | VList vs => as_strs vs
  | _ => raise (TypeError "not a list")
  end.

Definition as_band (v : value) : M (option Z) :=
  match v with
  | VNone => ret None
  | VInt n => ret (Some n)
  | _ => raise (TypeError "not an integer")
  end.

(** [def asArray(self, path, band = None)] *)
Definition GeoProcess_asArray : pyfunc (option ndarray) :=
  {| fn_name := "asArray";
     fn_params := ["self"; "path"; "band"];
     fn_defaults := [VNone];
     fn_body := fun frame =>
       path <- as_str (frame !!! 1%nat) ;;
       band <- as_band (frame !!! 2%nat) ;;
       asArray path band |}.

(** [def buildVRT(self, list_files, dst)] *)
Definition GeoProcess_buildVRT : pyfunc unit :=
  {| fn_name := "buildVRT";
     fn_params := ["self"; "list_files"; "dst"];
     fn_defaults := [];
     fn_body := fun frame =>
       list_files <- as_str_list (frame !!! 1%nat) ;;
       dst <- as_str (frame !!! 2%nat) ;;
       buildVRT list_files dst |}.

(** [def vrtToTiff(self, vrtFile, dst)] *)
Definition GeoProcess_vrtToTiff : pyfunc unit :=
  {| fn_name := "vrtToTiff";
     fn_params := ["self"; "vrtFile"; "dst"];
     fn_defaults := [];
     fn_body := fun frame =>
       vrtFile <- as_str (frame !!! 1%nat) ;;
       dst <- as_str (frame !!! 2%nat) ;;
       vrtToTiff vrtFile dst |}.

(** ** GeoProcess.merge *)

Definition merge (list_files : list string) (vrt dst : string) : M unit :=
  call GeoProcess_buildVRT [VList (VStr <$> list_files); VStr vrt] ;;;
  call GeoProcess_vrtToTiff [VStr vrt; VStr dst] ;;;
  os_remove vrt.

(** ** The pixel-type selection shared by tiling, resizing and save_tiff

    Four independent [if]s, each assigning [outputType]; no [else]. *)
Definition select_outputType (dtype : string) : option GDALDataType :=
  let outputType := None in
  let outputType := if String.eqb dtype "Float32" then Some GDT_Float32 else outputType in
  let outputType := if String.eqb dtype "Float64" then Some GDT_Float64 else outputType in
  let outputType := if String.eqb dtype "UInt16" then Some GDT_UInt16 else outputType in
  let outputType := if String.eqb dtype "Byte" then Some GDT_Byte else outputType in
  outputType.

(** ** range *)

Fixpoint range_up (fuel : nat) (cur stop step : Z) : list Z :=
  match fuel with
  | O => []
  | S fuel' => if cur <? stop then cur :: range_up fuel' (cur + step) stop step else []
  end.

Fixpoint range_down (fuel : nat) (cur stop step : Z) : list Z :=
  match fuel with
  | O => []
  | S fuel' => if stop <? cur then cur :: range_down fuel' (cur + step) stop step else []
  end.

(** [range(start, stop, step)] *)
Definition py_range (start stop step : Z) : M (list Z) :=
  if step =? 0 then raise (ValueError "range() arg 3 must not be zero")
  else if 0 <? step then ret (range_up (Z.to_nat (stop - start)) start stop step)
  else ret (range_down (Z.to_nat (start - stop)) start stop step).

(** ** GeoProcess.tiling *)

(** [dst + '_{}.tif'.format(tile)] *)
Definition tile_name (dst : string) (tile : Z) : string :=
  dst +:+ ("_" +:+ pretty tile +:+ ".tif").

(** [h, w, bands = im.shape] when the shape has more than two entries,
    [h, w = im.shape] otherwise. *)
Definition unpack_hw (s : list Z) : M (Z * Z) :=
  if 2 <? Z.of_nat (length s) then
    match s with
    | [h; w; _] => ret (h, w)
    | _ => raise (ValueError "unpack")
    end
  else
    match s with
    | [h; w] => ret (h, w)
    | _ => raise (ValueError "unpack")
    end.

(** The body of the inner loop for the pair [(i, j)]; [tile] is the counter
    on entry and the result is the counter on exit. *)
Definition tiling_cell (src dst : string) (size_w size_h : Z)
    (outputType : option GDALDataType) (noData : value) (i j tile : Z) : M Z :=
  let tile := tile + 1 in
  let destName := tile_name dst tile in
  present <- os_path_isfile destName ;;
  if negb present then
    ot <- use_local "outputType" outputType ;;
    library_call "gdal.Translate" []
      [("destName", VStr destName); ("srcDS", VStr src); ("format", VStr "GTiff");
       ("outputType", VType ot);
       ("srcWin", VList [VInt i; VInt j; VInt size_w; VInt size_h]);
       ("noData", noData)]
      destName ;;;
    ret tile
  else ret tile.

(** Lines 200 to 223: what tiling does with the array [im] it has read. *)
Definition tiling_from (im : option ndarray) (src dst : string)
    (size_w size_h : Z) (dtype : string) (noData : value) : M unit :=
  let tile := 0 in
  let outputType := select_outputType dtype in
  hw <- match im with
        | Some a => unpack_hw (shape a)
        | None => raise (AttributeError "NoneType" "shape")
        end ;;
  let '(h, w) := hw in
  is_ <- py_range 0 w size_w ;;
  for_ is_ (fun i tile =>
    js <- py_range 0 h size_h ;;
    for_ js (fun j tile =>
      tiling_cell src dst size_w size_h outputType noData i j tile) tile) tile ;;;
  ret tt.

Definition tiling (src dst : string) (size_w size_h : Z) (dtype : string)
    (noData : value) : M unit :=
  im <- call GeoProcess_asArray [VStr src] ;;
  tiling_from im src dst size_w size_h dtype noData.

(** ** GeoProcess.resizing *)

Definition resizing (src dst : string) (width height xRes yRes : value)
    (dtype : string) : M unit :=
  let outputType := select_outputType dtype in
  (if is_None xRes then
     if is_None yRes then
       emit (EPrint "New size : width = {} / height = {}" [width; height]) ;;;
       ot <- use_local "outputType" outputType ;;
       library_call "gdal.Warp" [VStr dst; VStr src]
         [("width", width); ("height", height);
          ("outputType", VType ot); ("resampleAlg", VInt 3)]
         dst
     else ret tt
   else ret tt) ;;;
  (if is_None width then
     if is_None height then
       emit (EPrint "New resolution : xRes = {} / yRes = {}" [xRes; yRes]) ;;;
       ot <- use_local "outputType" outputType ;;
       library_call "gdal.Warp" [VStr dst; VStr src]
         [("xRes", xRes); ("yRes", yRes);
          ("outputType", VType ot); ("resampleAlg", VInt 3)]
         dst
     else ret tt
   else ret tt).

(** ** GeoProcess.save_tiff *)

(** The geotransform of a raster that has been given none. *)
Definition default_geotransform : list Q := [0%Q; 1%Q; 0%Q; 0%Q; 0%Q; 1%Q].

(** [gdal.GetDriverByName("GTiff").Create(name, xsize, ysize, bands, eType)]:
    the file exists from here on; the returned dataset object is modified in
    memory until it is flushed. *)
Definition Driver_Create (name : string) (xsize ysize bands : Z)
    (eType : GDALDataType) : M Dataset :=
  let blank := replicate (Z.to_nat ysize) (replicate (Z.to_nat xsize) 0) in
  let ds := mkDataset xsize ysize eType
              (replicate (Z.to_nat bands) (mkBand blank None))
              default_geotransform "" in
  write_file name (FRaster ds) ;;; ret ds.

Definition SetGeoTransform (ds : Dataset) (gt : list Q) : Dataset :=
  mkDataset (RasterXSize ds) (RasterYSize ds) (raster_type ds) (raster_bands ds)
            gt (Projection ds).

Definition SetProjection (ds : Dataset) (prj : string) : Dataset :=
  mkDataset (RasterXSize ds) (RasterYSize ds) (raster_type ds) (raster_bands ds)
            (GeoTransform ds) prj.

(** [ds.GetRasterBand(band).method(...)]: the band object is part of the
    dataset, so the method's effect on it is an effect on [ds]. *)
Definition on_band (ds : Dataset) (band : Z) (method : string)
    (f : Band -> M Band) : M Dataset :=
  match GetRasterBand ds band with
  | Some b =>
      b' <- f b ;;
      ret (mkDataset (RasterXSize ds) (RasterYSize ds) (raster_type ds)
                     (<[Z.to_nat (band - 1) := b']> (raster_bands ds))
                     (GeoTransform ds) (Projection ds))
  | None => raise (AttributeError "NoneType" method)
  end.

Definition SetNoDataValue (nodata : Q) (b : Band) : M Band :=
  ret (mkBand (band_data b) (Some nodata)).

(** [band.WriteArray(array)]: the library's band writer takes an array of
    rank 2 and raises [ValueError] on any other. *)
Definition WriteArray (array : ndarray) (b : Band) : M Band :=
  match array with
  | Arr2 p => ret (mkBand p (band_nodata b))
  | Arr3 _ => raise (ValueError "expected array of dim 2")
  end.

Definition FlushCache (name : string) (ds : Dataset) : M unit :=
  write_file name (FRaster ds).

(** [nparray[:,:,k]] *)
Definition slice_last (nparray : ndarray) (k : Z) : M ndarray :=
  match nparray with
  | Arr3 a => ret (Arr2 (map (map (fun cell => nth (Z.to_nat k) cell 0)) a))
  | Arr2 _ => raise (TypeError "too many indices for array")
  end.

(** [x.method()] on the result of [gdal.Open], which may be [None]. *)
Definition method_of {A} (ref : option Dataset) (method : string)
    (f : Dataset -> A) : M A :=
  match ref with
  | Some ds => ret (f ds)
  | None => raise (AttributeError "NoneType" method)
  end.

Definition save_tiff (dst_filename : string) (nparray : ndarray)
    (ref_proj ref_geom : string) (dtype : string) (nodata_value : Q) : M unit :=
  proj_ref <- gdal_Open ref_proj ;;
  geom_ref <- gdal_Open ref_geom ;;
  crb <- (if Z.of_nat (length (shape nparray)) =? 2 then
            match shape nparray with
            | [cols; rows] => ret (cols, rows, 1)
            | _ => raise (ValueError "unpack")
            end
          else
            match shape nparray with
            | [cols; rows; bands] => ret (cols, rows, bands)
            | _ => raise (ValueError "unpack")
            end) ;;
  let '(cols, rows, bands) := crb in
  let outputType := select_outputType dtype in
  ot <- use_local "outputType" outputType ;;
  outdata <- Driver_Create dst_filename rows cols bands ot ;;
  gt <- method_of geom_ref "GetGeoTransform" GeoTransform ;;
  let outdata := SetGeoTransform outdata gt in
  prj <- method_of proj_ref "GetProjectionRef" Projection ;;
  let outdata := SetProjection outdata prj in
  outdata <-
    (if 1 <? bands then
       bs <- py_range 1 (bands + 1) 1 ;;
       for_ bs (fun band outdata =>
         outdata <- on_band outdata band "SetNoDataValue" (SetNoDataValue nodata_value) ;;
         plane_ <- slice_last nparray (band - 1) ;;
         on_band outdata band "WriteArray" (WriteArray plane_)) outdata
     else
       outdata <- on_band outdata bands "SetNoDataValue" (SetNoDataValue nodata_value) ;;
       on_band outdata bands "WriteArray" (WriteArray nparray)) ;;
  FlushCache dst_filename outdata.

(** ** The library's resampling selectors

    GDAL numbers its resampling algorithms (GDALResampleAlg, and the same
    numbers as GRIORA_ constants in the Python binding): 0 nearest neighbour,
    1 bilinear, 2 cubic convolution, 3 cubic B-spline, 4 Lanczos, 5 average,
    6 mode. The module passes the number, not a name. *)
Inductive GDALResampleAlg :=
| GRA_NearestNeighbour | GRA_Bilinear | GRA_Cubic | GRA_CubicSpline
| GRA_Lanczos | GRA_Average | GRA_Mode.

Definition resample_of_code (n : Z) : option GDALResampleAlg :=
  match n with
  | 0 => Some GRA_NearestNeighbour
  | 1 => Some GRA_Bilinear
  | 2 => Some GRA_Cubic
  | 3 => Some GRA_CubicSpline
  | 4 => Some GRA_Lanczos
  | 5 => Some GRA_Average
  | 6 => Some GRA_Mode
  | _ => None
  end.

(** The keyword argument [key] of a logged call. *)
Fixpoint kwarg (key : string) (kwargs : list (string * value)) : option value :=
  match kwargs with
  | [] => None
  | (k, v) :: rest => if String.eqb k key then Some v else kwarg key rest
  end.

Definition is_call (fn : string) (e : event) : bool :=
  match e with
  | ECall f _ _ => String.eqb f fn
  | EPrint _ _ => false
  end.

Definition event_kwarg (key : string) (e : event) : option value :=
  match e with
  | ECall _ _ kw => kwarg key kw
  | EPrint _ _ => None
  end.

(** The resampling algorithm a logged [gdal.Warp] call selects. *)
Definition warp_algorithm (e : event) : option GDALResampleAlg :=
  match event_kwarg "resampleAlg" e with
  | Some (VInt n) => resample_of_code n
  | _ => None
  end.

(** ** GeoProcess.crop *)

Definition crop (src dst vec : string) (dtype : string) : M unit :=
  let outputType := select_outputType dtype in
  ot <- use_local "outputType" outputType ;;
  library_call "gdal.Warp" [VStr dst; VStr src]
    [("format", VStr "GTiff"); ("cutlineDSName", VStr vec);
     ("outputType", VType ot); ("cropToCutline", VBool true);
     ("resampleAlg", VInt 3)]
    dst.

(** ** GetGeoInfo

    The two methods of [GetGeoInfo] only read: they print nothing and write
    nothing, so they are functions of what the library finds at the path,
    giving the dictionary they return or the exception they end in. *)

(** An exception of the readers: one of the module's, or the [IndexError] of
    an index past the end of a sequence. *)
Inductive reader_exn :=
| Raised (e : exn)
| IndexError (what : string).

(** [seq[i]] for [i >= 0] *)
Definition py_index {A} (what : string) (l : list A) (i : nat) : reader_exn + A :=
  match l !! i with
  | Some x => inr x
  | None => inl (IndexError what)
  end.

(** [seq[-k:]]: the last [k] items, or all of them when there are fewer. *)
Definition py_last {A} (k : nat) (l : list A) : list A :=
  drop (length l - k) l.

(** The dictionary [GetGeoInfo.raster] returns, by key. *)
Record RasterInfo := mkRasterInfo {
  info_Projection : string;
  info_Geometry : list Q;
  info_nBands : Z;
  info_xRes : Q;
  info_yRes : Q;
  info_Width : Z;
  info_Height : Z
}.

(** [GetGeoInfo.raster(path)], over the files of [w]. *)
Definition raster (w : World) (path : string) : reader_exn + RasterInfo :=
  match decode (fs w !! path) with
  | None => inl (Raised (AttributeError "NoneType" "GetProjection"))
  | Some data =>
      let prj := Projection data in
      let geo := GeoTransform data in
      let nBands := RasterCount data in
      match py_index "tuple" geo 1 with
      | inl e => inl e
      | inr xres =>
          match py_index "tuple" geo 5 with
          | inl e => inl e
          | inr yres =>
              match Dataset_ReadAsArray data with
              | None => inl (Raised (AttributeError "NoneType" "shape"))
              | Some array =>
                  let shape_ := shape array in
                  match py_index "tuple" (py_last 1 shape_) 0 with
                  | inl e => inl e
                  | inr width_ =>
                      match py_index "tuple" (py_last 2 shape_) 0 with
                      | inl e => inl e
                      | inr height_ =>
                          inr (mkRasterInfo prj geo nBands xres yres width_ height_)
                      end
                  end
              end
          end
      end
  end.

(** A vector file as the library presents it: layers, each with the field
    names of its definition and its features; a feature has a geometry or
    none, and one value per field of the definition, in the definition's
    order. *)
Record OGRGeometry := mkGeometry {
  ExportToWkt : string;
  ExportToJson : string
}.

Record OGRFeature := mkFeature {
  GetGeometryRef : option OGRGeometry;
  feature_values : list value
}.

Record OGRLayer := mkLayer {
  layer_fields : list string;
  layer_features : list OGRFeature
}.

(** The position of the first field called [name]. *)
Fixpoint GetFieldIndex (fields : list string) (name : string) : option nat :=
  match fields with
  | [] => None
  | f :: rest =>
      if String.eqb f name then Some O
      else S <$> GetFieldIndex rest name
  end.

(** [feature.GetField(name)]: the value of the first field of that name; a
    field that is not set reads as [None]. *)
Definition GetField (fields : list string) (feature : OGRFeature)
    (name : string) : value :=
  match GetFieldIndex fields name with
  | Some i => default VNone (feature_values feature !! i)
  | None => VNone
  end.

(** The loop over the features: [f] counts them, [infos] collects their
    dictionaries. *)
Fixpoint vector_features (fields : list string) (features : list OGRFeature)
    (f : Z) (infos : gmap Z (gmap string value))
    : reader_exn + gmap Z (gmap string value) :=
  match features with
  | [] => inr infos
  | feature :: rest =>
      match GetGeometryRef feature with
      | None => inl (Raised (AttributeError "NoneType" "ExportToWkt"))
      | Some geom =>
          let wkt := ExportToWkt geom in
          let geoJson := ExportToJson geom in
          let tmp : gmap string value :=
            <["JSON" := VStr geoJson]> (<["WKT" := VStr wkt]> ∅) in
          let tmp :=
            fold_left (fun tmp field => <[field := GetField fields feature field]> tmp)
                      fields tmp in
          vector_features fields rest (f + 1) (<[f := tmp]> infos)
      end
  end.

(** [GetGeoInfo.vector(path)], over the vector files [vectors] that
    [osgeo.ogr.Open(path, 1)] can open. *)
Definition vector (vectors : gmap string (list OGRLayer)) (path : string)
    : reader_exn + gmap Z (gmap string value) :=
  match vectors !! path with
  | None => inl (Raised (AttributeError "NoneType" "GetLayer"))
  | Some file =>
      match file with
      | [] => inl (Raised (AttributeError "NoneType" "GetLayerDefn"))
      | layer :: _ =>
          let names := layer_fields layer in
          let fields :=
            fold_left (fun fields i => fields ++ [nth i names ""])
                      (seq 0 (length names)) [] in
          vector_features fields (layer_features layer) 0 ∅
      end
  end.

(** * Vocabulary of the statements *)

(** The warp call of target-dimension mode and of target-resolution mode. *)
Definition warp_by_size (src dst : string) (width height : value)
    (ot : GDALDataType) : event :=
  ECall "gdal.Warp" [VStr dst; VStr src]
    [("width", width); ("height", height);
     ("outputType", VType ot); ("resampleAlg", VInt 3)].

Definition warp_by_resolution (src dst : string) (xRes yRes : value)
    (ot : GDALDataType) : event :=
  ECall "gdal.Warp" [VStr dst; VStr src]
    [("xRes", xRes); ("yRes", yRes);
     ("outputType", VType ot); ("resampleAlg", VInt 3)].

(** A logged call, if it is a warp, names resampling selector 3, and the
    library reads that selector as [alg]. *)
Definition warp_selects (alg : GDALResampleAlg) (e : event) : Prop :=
  is_call "gdal.Warp" e = true ->
  event_kwarg "resampleAlg" e = Some (VInt 3) /\ warp_algorithm e = Some alg.

(** A plane of [H] rows of [W] pixels. *)
Definition plane_of_size (H W : nat) (p : plane) : Prop :=
  length p = H /\ Forall (fun row => length row = W) p.

(** A raster as the library hands it over: a positive size, and every band a
    plane of that size. *)
Definition wf_dataset (ds : Dataset) : Prop :=
  0 < RasterXSize ds /\ 0 < RasterYSize ds /\
  Forall (fun b => plane_of_size (Z.to_nat (RasterYSize ds))
                                 (Z.to_nat (RasterXSize ds)) (band_data b))
         (raster_bands ds).

(** The ceiling of [a / b], for positive [b]. *)
Definition ceil_div (a b : Z) : Z := (a + b - 1) / b.

(** [im.shape[0]] and [im.shape[1]]: the height and the width of an array. *)
Definition height (a : ndarray) : Z := nth 0 (shape a) 0.
Definition width (a : ndarray) : Z := nth 1 (shape a) 0.

(** A tile to extract: its index, and the offsets [(i, j)] of its window. *)
Definition job : Type := Z * Z * Z.
Definition job_tile (jb : job) : Z := jb.1.1.

(** The extraction request for one tile, as [tiling] words it. *)
Definition translate_request (src dst : string) (size_w size_h : Z)
    (ot : GDALDataType) (noData : value) (jb : job) : event :=
  ECall "gdal.Translate" []
    [("destName", VStr (tile_name dst (job_tile jb))); ("srcDS", VStr src);
     ("format", VStr "GTiff"); ("outputType", VType ot);
     ("srcWin", VList [VInt jb.1.2; VInt jb.2; VInt size_w; VInt size_h]);
     ("noData", noData)].

(** The tiles of a [W] x [H] source cut in [size_w] x [size_h] pieces: tile
    [k + 1] is in column [k / ny] and row [k mod ny] of the grid, where [ny]
    is the number of rows of tiles. Width offsets change slowest. *)
Definition tile_grid (W H size_w size_h : Z) : list job :=
  let nx := Z.to_nat (ceil_div W size_w) in
  let ny := Z.to_nat (ceil_div H size_h) in
  map (fun k => (Z.of_nat k + 1,
                 size_w * Z.of_nat (k / ny),
                 size_h * Z.of_nat (k mod ny)))
      (seq 0 (nx * ny)).

(** The tile's file is not there yet. *)
Definition is_missing (w : World) (dst : string) (jb : job) : bool :=
  negb (bool_decide (is_Some (fs w !! tile_name dst (job_tile jb)))).

(** The world after the library has served the requests for [jobs]. *)
Definition write_tile (src dst : string) (size_w size_h : Z)
    (ot : GDALDataType) (noData : value) (w : World) (jb : job) : World :=
  let e := translate_request src dst size_w size_h ot noData jb in
  mkWorld (<[tile_name dst (job_tile jb) := FProduct e]> (fs w)) (log w ++ [e]).

Definition write_tiles (src dst : string) (size_w size_h : Z)
    (ot : GDALDataType) (noData : value) (jobs : list job) (w : World) : World :=
  fold_left (write_tile src dst size_w size_h ot noData) jobs w.

(** The cells of the two loops in the order they are visited, and the same
    with the value the counter [tile] has in each. *)
Fixpoint number_from (t : Z) (cells : list (Z * Z)) : list job :=
  match cells with
  | [] => []
  | c :: rest => (t, c.1, c.2) :: number_from (t + 1) rest
  end.

(** The requested window of a logged extraction lies inside a [W] x [H]
    source. *)
Definition window_inside (W H : Z) (e : event) : bool :=
  match event_kwarg "srcWin" e with
  | Some (VList [VInt x; VInt y; VInt ww; VInt hh]) =>
      (0 <=? x) && (0 <=? y) && (x + ww <=? W) && (y + hh <=? H)
  | _ => true
  end.

(** A small raster with three bands of one row and two columns. *)
Definition three_band_raster : Dataset :=
  mkDataset 2 1 GDT_Byte
    [mkBand [[1; 2]] None; mkBand [[3; 4]] None; mkBand [[5; 6]] None]
    default_geotransform "EPSG:4326".

(** [a[:,:,k]] of a rank-3 array given as nested lists. *)
Definition band_plane (a : list (list (list pixel))) (k : nat) : plane :=
  map (map (fun cell => nth k cell 0)) a.

(** The number of bands [save_tiff] reads off the array: 1 for rank 2, the
    length of the last axis for rank 3. *)
Definition band_count (nparray : ndarray) : Z :=
  match nparray with
  | Arr2 _ => 1
  | Arr3 _ => nth 2 (shape nparray) 0
  end.

(** The planes of the array, one per band: the array itself for rank 2, its
    slices along the last axis for rank 3. *)
Definition planes_of (nparray : ndarray) : list plane :=
  match nparray with
  | Arr2 p => [p]
  | Arr3 a => map (band_plane a) (seq 0 (Z.to_nat (band_count nparray)))
  end.

(** The raster that a complete write of the array leaves behind. *)
Definition saved_raster (nparray : ndarray) (ot : GDALDataType) (nodata : Q)
    (gt : list Q) (prj : string) : Dataset :=
  mkDataset (width nparray) (height nparray) ot
            (map (fun p => mkBand p (Some nodata)) (planes_of nparray))
            gt prj.

(** The arrays on which both branches of [save_tiff] write slices of rank 2:
    rank 2, or rank 3 with at least two bands. *)
Definition sliced_by_save_tiff (nparray : ndarray) : Prop :=
  match nparray with
  | Arr2 _ => True
  | Arr3 _ => 1 < band_count nparray
  end.

(** The dataset [ds] with its bands replaced by [bs]. *)
Definition with_bands (ds : Dataset) (bs : list Band) : Dataset :=
  mkDataset (RasterXSize ds) (RasterYSize ds) (raster_type ds) bs
            (GeoTransform ds) (Projection ds).

(** The reference raster of the examples: two columns, two rows, one band. *)
Definition reference_raster : Dataset :=
  mkDataset 2 2 GDT_Float32 [mkBand [[1; 2]; [3; 4]] None]
    [500000%Q; 10%Q; 0%Q; 4600000%Q; 0%Q; (-10)%Q] "EPSG:32631".

Definition reference_world : World :=
  mkWorld (<["ref.tif" := FRaster reference_raster]> ∅) [].

(** The tile's file is there already. *)
Definition is_present (w : World) (dst : string) (jb : job) : bool :=
  negb (is_missing w dst jb).

(** The raster that [save_tiff] has created before it writes anything to it:
    the array's size and band count, every band blank. *)
Definition created_raster (nparray : ndarray) (ot : GDALDataType) : Dataset :=
  mkDataset (width nparray) (height nparray) ot
    (replicate (Z.to_nat (band_count nparray))
       (mkBand (replicate (Z.to_nat (height nparray))
                  (replicate (Z.to_nat (width nparray)) 0)) None))
    default_geotransform "".

(** The warp of [crop]. *)
Definition crop_request (src dst vec : string) (ot : GDALDataType) : event :=
  ECall "gdal.Warp" [VStr dst; VStr src]
    [("format", VStr "GTiff"); ("cutlineDSName", VStr vec);
     ("outputType", VType ot); ("cropToCutline", VBool true);
     ("resampleAlg", VInt 3)].

(** The library calls of [buildVRT] and of [vrtToTiff]. *)
Definition build_request (list_files : list string) (dst : string) : event :=
  ECall "gdal.BuildVRT" []
    [("destName", VStr dst);
     ("srcDSOrSrcDSTab", VList (VStr <$> list_files));
     ("allowProjectionDifference", VBool true)].

Definition materialize_request (vrtFile dst : string) : event :=
  ECall "gdal.Translate" []
    [("destName", VStr dst); ("srcDS", VStr vrtFile); ("format", VStr "GTiff")].

(** A computation leaves the log alone and, of the files, changes at most
    the one at [dst]. *)
Definition writes_only {A} (dst : string) (m : M A) : Prop :=
  forall w, log (snd (m w)) = log w /\
            forall p, p <> dst -> fs (snd (m w)) !! p = fs w !! p.

(** The dictionary [GetGeoInfo.vector] builds for one feature with a
    geometry. *)
Definition feature_entry (fields : list string) (feature : OGRFeature)
    (geom : OGRGeometry) : gmap string value :=
  fold_left (fun tmp field => <[field := GetField fields feature field]> tmp)
            fields
            (<["JSON" := VStr (ExportToJson geom)]>
               (<["WKT" := VStr (ExportToWkt geom)]> ∅)).

(** A layer of the examples: two fields, the second of them called [WKT];
    its second feature has no geometry in [parcels_broken]. *)
Definition parcel_1 : OGRFeature :=
  mkFeature (Some (mkGeometry "POINT (1 2)" "{ type: Point, coordinates: [1, 2] }"))
            [VStr "north"; VInt 7].

Definition parcel_2 : OGRFeature :=
  mkFeature (Some (mkGeometry "POINT (3 4)" "{ type: Point, coordinates: [3, 4] }"))
            [VStr "south"; VInt 9].

Definition parcels : gmap string (list OGRLayer) :=
  <["parcels.shp" := [mkLayer ["name"; "WKT"] [parcel_1; parcel_2]]]> ∅.

Definition parcels_broken : gmap string (list OGRLayer) :=
  <["parcels.shp" :=
      [mkLayer ["name"; "WKT"] [parcel_1; mkFeature None [VStr "south"; VInt 9]]]]> ∅.

(** The pixel values that a band of the given type holds exactly, so that
    the library's conversion to the band type on write changes none of them:
    0 to 255 for [Byte], 0 to 65535 for [UInt16], and the integers up to
    2^24 and 2^53 in magnitude for the two float types. *)
Definition representable (ot : GDALDataType) (v : pixel) : Prop :=
  match ot with
  | GDT_Byte => 0 <= v <= 255
  | GDT_UInt16 => 0 <= v <= 65535
  | GDT_Float32 => -16777216 <= v <= 16777216
  | GDT_Float64 => -9007199254740992 <= v <= 9007199254740992
  end.

(** Every pixel of a plane, and of an array, satisfies [P]. *)
Definition plane_pixels (P : pixel -> Prop) (p : plane) : Prop :=
  Forall (Forall P) p.

Definition all_pixels (P : pixel -> Prop) (nparray : ndarray) : Prop :=
  match nparray with
  | Arr2 p => plane_pixels P p
  | Arr3 a => Forall (Forall (Forall P)) a
  end.

(** * Properties *)

(** ** asArray on a readable raster *)

Lemma nth_map_seq {A} (f : nat -> A) (n i : nat) (d : A) :
  (i < n)%nat -> nth i (map f (seq 0 n)) d = f i.
Proof.
  intros Hi. rewrite nth_lookup, list_lookup_fmap, lookup_seq_lt by done.
  reflexivity.
Qed.

Lemma plane_shape (H W : nat) (p : plane) :
  (0 < H)%nat -> plane_of_size H W p ->
  length p = H /\ length (hd [] p) = W.
Proof.
  intros HH [Hlen Hrows]. split; [ done | ].
  destruct p as [|row p]; [ simpl in Hlen; lia | ].
  simpl. by inversion Hrows.
Qed.

Lemma dstack_cell (planes : list plane) (r c : nat) :
  (r < length (hd [] planes))%nat ->
  (c < length (hd [] (hd [] planes)))%nat ->
  nth c (nth r (dstack planes) []) [] = map (fun p => px p r c) planes.
Proof.
  intros Hr Hc. unfold dstack.
  rewrite (nth_map_seq _ _ r) by done.
  by rewrite (nth_map_seq _ _ c).
Qed.

Lemma dstack_shape (planes : list plane) :
  (0 < length (hd [] planes))%nat ->
  (0 < length (hd [] (hd [] planes)))%nat ->
  shape (Arr3 (dstack planes))
  = [Z.of_nat (length (hd [] planes));
     Z.of_nat (length (hd [] (hd [] planes)));
     Z.of_nat (length planes)].
Proof.
  intros Hr Hc. unfold shape.
  assert (Hhd : forall {A} (l : list A) (d : A), hd d l = nth 0 l d)
    by (intros A [|x l] d; reflexivity).
  rewrite (Hhd _ (hd [] (dstack planes))), (Hhd _ (dstack planes)).
  rewrite dstack_cell by done.
  unfold dstack at 1 2. rewrite (nth_map_seq _ _ 0%nat) by done.
  by rewrite !length_map, !length_seq.
Qed.

(** C4. For a path that opens as a raster, [asArray] returns, without any
    effect on the world:
    - band unset and more than one band: a rank-3 array of shape
      (height, width, bands) whose entry [r, c, k] is pixel [r, c] of the
      source's band [k + 1], so the bands lie along the last axis in source
      order;
    - band unset and exactly one band: the rank-2 (height x width) array of
      that band;
    - band set to [band]: the rank-2 array of the source's band [band],
      counted from 1. *)
Theorem asArray_readable (path : string) (w : World) (ds : Dataset) :
  decode (fs w !! path) = Some ds ->
  wf_dataset ds ->
  (1 < RasterCount ds ->
     exists a,
       asArray path None w = (Ok (Some (Arr3 a)), w) /\
       shape (Arr3 a) = [RasterYSize ds; RasterXSize ds; RasterCount ds] /\
       forall (r c k : nat) (b : Band),
         (r < Z.to_nat (RasterYSize ds))%nat ->
         (c < Z.to_nat (RasterXSize ds))%nat ->
         raster_bands ds !! k = Some b ->
         nth k (nth c (nth r a []) []) 0 = px (band_data b) r c)
  /\ (forall b,
        raster_bands ds = [b] ->
        asArray path None w = (Ok (Some (Arr2 (band_data b))), w) /\
        shape (Arr2 (band_data b)) = [RasterYSize ds; RasterXSize ds])
  /\ (forall band b,
        1 <= band ->
        raster_bands ds !! Z.to_nat (band - 1) = Some b ->
        asArray path (Some band) w = (Ok (Some (Arr2 (band_data b))), w) /\
        shape (Arr2 (band_data b)) = [RasterYSize ds; RasterXSize ds]).
Proof.
  intros Hopen (HX & HY & Hbands).
  assert (Hsize : forall b, b ∈ raster_bands ds ->
            length (band_data b) = Z.to_nat (RasterYSize ds) /\
            length (hd [] (band_data b)) = Z.to_nat (RasterXSize ds)).
  { intros b Hb. apply plane_shape; [ lia | ].
    by apply (proj1 (Forall_forall _ _) Hbands). }
  assert (Hrun : forall band,
            asArray path band w
            = match band with
              | None =>
                  if 1 <? RasterCount ds then
                    match Dataset_ReadAsArray ds with
                    | Some array => ret (Some (np_dstack array)) w
                    | None => raise (TypeError "dstack of None") w
                    end
                  else ret (Dataset_ReadAsArray ds) w
              | Some band =>
                  match GetRasterBand ds band with
                  | Some b => ret (Some (Arr2 (band_data b))) w
                  | None => raise (AttributeError "NoneType" "ReadAsArray") w
                  end
              end).
  { intros band. unfold asArray, gdal_Open, read_file, bind, ret; simpl.
    rewrite Hopen.
    destruct band as [z|];
      [ destruct (GetRasterBand ds z)
      | destruct (1 <? RasterCount ds); [ destruct (Dataset_ReadAsArray ds) | ] ];
      reflexivity. }
  split; [ | split ].
  - intros Hmany. unfold RasterCount in *.
    destruct (raster_bands ds) as [|b1 [|b2 bs]] eqn:Hbs; simpl in Hmany; try lia.
    exists (dstack (map band_data (b1 :: b2 :: bs))).
    destruct (Hsize b1) as [Hlen1 Hrow1]; [ left | ].
    split; [ | split ].
    + rewrite Hrun. unfold Dataset_ReadAsArray, RasterCount. rewrite Hbs.
      replace (1 <? Z.of_nat (length (b1 :: b2 :: bs))) with true
        by (symmetry; apply Z.ltb_lt; simpl; lia).
      reflexivity.
    + rewrite dstack_shape; simpl hd; rewrite ?Hlen1, ?Hrow1; try lia.
      rewrite length_map. f_equal; [ lia | f_equal; lia ].
    + intros r c k b Hr Hc Hk.
      rewrite dstack_cell; simpl hd; rewrite ?Hlen1, ?Hrow1; try done.
      rewrite map_map, nth_lookup, list_lookup_fmap, Hk. reflexivity.
  - intros b Hb. rewrite Hrun. unfold Dataset_ReadAsArray, RasterCount. rewrite Hb.
    split; [ reflexivity | ].
    destruct (Hsize b) as [Hlen Hrow]; [ rewrite Hb; left | ].
    unfold shape. rewrite Hlen, Hrow. f_equal; [ lia | f_equal; lia ].
  - intros band b Hband Hb. rewrite Hrun. unfold GetRasterBand, RasterCount.
    pose proof (lookup_lt_Some _ _ _ Hb) as Hlt.
    replace ((1 <=? band) && (band <=? Z.of_nat (length (raster_bands ds)))) with true
      by (symmetry; apply andb_true_iff; split; [ apply Z.leb_le | apply Z.leb_le ]; lia).
    rewrite Hb. split; [ reflexivity | ].
    destruct (Hsize b) as [Hlen Hrow]; [ by eapply list_elem_of_lookup_2 | ].
    unfold shape. rewrite Hlen, Hrow. f_equal; [ lia | f_equal; lia ].
Qed.

Lemma three_band_raster_wf : wf_dataset three_band_raster.
Proof.
  unfold wf_dataset, plane_of_size. simpl.
  split; [ lia | split; [ lia | ] ].
  repeat constructor.
Qed.

Lemma asArray_readable_witness :
  let w := mkWorld (<["rgb.tif" := FRaster three_band_raster]> ∅) [] in
  (exists a, asArray "rgb.tif" None w = (Ok (Some (Arr3 a)), w)
             /\ shape (Arr3 a) = [1; 2; 3])
  /\ asArray "rgb.tif" (Some 2) w = (Ok (Some (Arr2 [[3; 4]])), w).
Proof.
  intros w.
  assert (Hopen : decode (fs w !! "rgb.tif") = Some three_band_raster)
    by reflexivity.
  destruct (asArray_readable "rgb.tif" w three_band_raster Hopen
              three_band_raster_wf)
    as (Hstack & _ & Hband).
  split.
  - destruct (Hstack eq_refl) as (a & Hrun & Hshape & _).
    exists a. split; [ exact Hrun | exact Hshape ].
  - exact (proj1 (Hband 2 (mkBand [[3; 4]] None) ltac:(lia) eq_refl)).
Defined.

(** The three bands of [three_band_raster], stacked: pixel [(0, c)] holds the
    values of bands 1, 2, 3 in that order. *)
Example asArray_three_bands :
  fst (asArray "rgb.tif" None
         (mkWorld (<["rgb.tif" := FRaster three_band_raster]> ∅) []))
  = Ok (Some (Arr3 [[[1; 3; 5]; [2; 4; 6]]])).
Proof. vm_compute. reflexivity. Qed.

(** ** asArray on a path that does not open *)

(** C5. When the path cannot be opened as a raster ([gdal.Open] gives [None]
    and raises nothing), [asArray] detects it itself, reports it with
    [print('No data in {}'.format(path))] and hands the caller [None] in place
    of an array: the unavailable data reaches the caller as that result, not
    as an exception of the library, and nothing is read. *)
Theorem asArray_unopenable (path : string) (band : option Z) (w : World) :
  decode (fs w !! path) = None ->
  asArray path band w
  = (Ok None, mkWorld (fs w) (log w ++ [EPrint "No data in {}" [VStr path]])).
Proof.
  intros Hopen. unfold asArray, gdal_Open, read_file, bind, ret; simpl.
  by rewrite Hopen.
Qed.

Lemma asArray_unopenable_witness :
  decode (fs (mkWorld ∅ []) !! "missing.tif") = None /\
  asArray "missing.tif" None (mkWorld ∅ [])
  = (Ok None, mkWorld ∅ [EPrint "No data in {}" [VStr "missing.tif"]]).
Proof.
  split; [ reflexivity | ].
  exact (asArray_unopenable "missing.tif" None (mkWorld ∅ []) eq_refl).
Defined.

(** ** merge *)

(** C1. [merge] calls [GeoProcess.buildVRT(list_files, vrt)]: two arguments for
    the three parameters [self, list_files, dst]. The call raises [TypeError]
    for the missing [dst] before anything is built, materialised or deleted:
    the world is left as it was, whatever the arguments. *)
Theorem merge_stops_at_buildVRT_call (list_files : list string) (vrt dst : string)
    (w : World) :
  merge list_files vrt dst w = (Exc (TypeError_missing "buildVRT" ["dst"]), w).
Proof. reflexivity. Qed.

(** ** The pixel types *)

(** A pixel type is selected exactly for the four names of the docstrings. *)
Lemma select_outputType_cases dtype ot :
  select_outputType dtype = Some ot ->
  (dtype = "Float32" /\ ot = GDT_Float32) \/ (dtype = "Float64" /\ ot = GDT_Float64) \/
  (dtype = "UInt16" /\ ot = GDT_UInt16) \/ (dtype = "Byte" /\ ot = GDT_Byte).
Proof.
  unfold select_outputType.
  destruct (String.eqb_spec dtype "Byte") as [->|]; [ intros [= <-]; auto | ].
  destruct (String.eqb_spec dtype "UInt16") as [->|]; [ intros [= <-]; auto | ].
  destruct (String.eqb_spec dtype "Float64") as [->|]; [ intros [= <-]; auto | ].
  destruct (String.eqb_spec dtype "Float32") as [->|]; [ intros [= <-]; auto | ].
  discriminate.
Qed.

(** ** tiling: ceilings and ranges *)

Lemma ceil_div_spec (a b : Z) :
  0 < b -> b * (ceil_div a b - 1) < a <= b * ceil_div a b.
Proof.
  intros Hb. unfold ceil_div.
  pose proof (Z.div_mod (a + b - 1) b ltac:(lia)) as Hdm.
  pose proof (Z.mod_pos_bound (a + b - 1) b Hb) as Hm.
  lia.
Qed.

Lemma ceil_div_nonpos (a b : Z) : 0 < b -> a <= 0 -> ceil_div a b <= 0.
Proof. intros Hb Ha. pose proof (ceil_div_spec a b Hb). nia. Qed.

Lemma ceil_div_pos (a b : Z) : 0 < b -> 0 < a -> 0 < ceil_div a b.
Proof. intros Hb Ha. pose proof (ceil_div_spec a b Hb). nia. Qed.

Lemma ceil_div_step (a b : Z) : 0 < b -> ceil_div a b = ceil_div (a - b) b + 1.
Proof.
  intros Hb. unfold ceil_div.
  replace (a + b - 1) with ((a - b + b - 1) + 1 * b) by lia.
  rewrite Z.div_add by lia. reflexivity.
Qed.

Lemma range_up_closed (fuel : nat) (cur stop step : Z) :
  0 < step -> (Z.to_nat (stop - cur) <= fuel)%nat ->
  range_up fuel cur stop step
  = map (fun k => cur + Z.of_nat k * step)
        (seq 0 (Z.to_nat (ceil_div (stop - cur) step))).
Proof.
  intros Hstep. revert cur. induction fuel as [|fuel IH]; intros cur Hfuel; simpl.
  - pose proof (ceil_div_nonpos (stop - cur) step Hstep ltac:(lia)).
    replace (Z.to_nat (ceil_div (stop - cur) step)) with 0%nat by lia. reflexivity.
  - destruct (Z.ltb_spec cur stop) as [Hlt|Hge].
    + rewrite IH by lia.
      rewrite (ceil_div_step (stop - cur) step Hstep).
      pose proof (ceil_div_spec (stop - cur - step) step Hstep) as Hc.
      replace (stop - (cur + step)) with (stop - cur - step) by lia.
      replace (Z.to_nat (ceil_div (stop - cur - step) step + 1))
        with (S (Z.to_nat (ceil_div (stop - cur - step) step))) by nia.
      simpl. f_equal; [ lia | ].
      rewrite <- seq_shift, map_map. apply map_ext. intros k. lia.
    + pose proof (ceil_div_nonpos (stop - cur) step Hstep ltac:(lia)).
      replace (Z.to_nat (ceil_div (stop - cur) step)) with 0%nat by lia. reflexivity.
Qed.

(** [range(0, stop, step)] for a positive step: the multiples of [step] below
    [stop], [ceil_div stop step] of them. *)
Lemma py_range_0 (stop step : Z) (w : World) :
  0 < step ->
  py_range 0 stop step w
  = (Ok (map (fun k => step * Z.of_nat k) (seq 0 (Z.to_nat (ceil_div stop step)))), w).
Proof.
  intros Hstep. unfold py_range.
  destruct (Z.eqb_spec step 0) as [?|_]; [ lia | ].
  destruct (Z.ltb_spec 0 step) as [_|?]; [ | lia ].
  rewrite range_up_closed by lia.
  unfold ret. rewrite Z.sub_0_r. do 2 f_equal. apply map_ext. intros k. lia.
Qed.

(** ** Loops *)

Lemma for_ext {A S} (xs : list A) (body1 body2 : A -> S -> M S) (s : S) (w : World) :
  (forall x s' w', body1 x s' w' = body2 x s' w') ->
  for_ xs body1 s w = for_ xs body2 s w.
Proof.
  intros Hext. revert s w. induction xs as [|x xs IH]; intros s w; simpl; [ done | ].
  unfold bind. rewrite Hext. destruct (body2 x s w) as [[s'|e] w']; [ apply IH | done ].
Qed.

Lemma for_app {A S} (xs ys : list A) (body : A -> S -> M S) (s : S) (w : World) :
  for_ (xs ++ ys) body s w = bind (for_ xs body s) (for_ ys body) w.
Proof.
  revert s w. induction xs as [|x xs IH]; intros s w; simpl.
  - reflexivity.
  - unfold bind. destruct (body x s w) as [[s'|e] w']; [ | done ].
    rewrite IH. reflexivity.
Qed.

Lemma for_map {A B S} (f : A -> B) (xs : list A) (body : B -> S -> M S) (s : S)
    (w : World) :
  for_ (map f xs) body s w = for_ xs (fun x => body (f x)) s w.
Proof.
  revert s w. induction xs as [|x xs IH]; intros s w; simpl; [ done | ].
  unfold bind. destruct (body (f x) s w) as [[s'|e] w']; [ apply IH | done ].
Qed.

(** Two nested loops visit the pairs of the product, the outer index
    changing slowest. *)
Lemma for_nested {A B S} (xs : list A) (ys : list B) (body : A -> B -> S -> M S)
    (s : S) (w : World) :
  for_ xs (fun x s' => for_ ys (body x) s') s w
  = for_ (flat_map (fun x => map (pair x) ys) xs) (fun c => body c.1 c.2) s w.
Proof.
  revert s w. induction xs as [|x xs IH]; intros s w; simpl; [ done | ].
  rewrite for_app. unfold bind. rewrite for_map. simpl.
  destruct (for_ ys (fun y => body x y) s w) as [[s'|e] w']; [ apply IH | done ].
Qed.

(** ** Tile names *)

Lemma string_length_app (s t : string) :
  String.length (s +:+ t) = (String.length s + String.length t)%nat.
Proof.
  induction s as [|a s IH]; [ reflexivity | ].
  change (String a s +:+ t) with (String a (s +:+ t)). simpl. by rewrite IH.
Qed.

Lemma string_app_inv_tail (s1 s2 t : string) : s1 +:+ t = s2 +:+ t -> s1 = s2.
Proof.
  revert s2. induction s1 as [|a s1 IH]; intros [|b s2] Heq.
  - reflexivity.
  - apply (f_equal String.length) in Heq. rewrite !string_length_app in Heq.
    simpl in Heq. lia.
  - apply (f_equal String.length) in Heq. rewrite !string_length_app in Heq.
    simpl in Heq. lia.
  - change (String a (s1 +:+ t) = String b (s2 +:+ t)) in Heq.
    injection Heq as -> Heq. f_equal. by apply IH.
Qed.

(** Distinct tile indices give distinct file names. *)
Lemma tile_name_inj (dst : string) (a b : Z) :
  tile_name dst a = tile_name dst b -> a = b.
Proof.
  unfold tile_name. intros Heq.
  apply String.app_inj in Heq. apply String.app_inj in Heq.
  apply string_app_inv_tail in Heq. by apply pretty_Z_inj in Heq.
Qed.

(** ** The run of the two loops *)

Section tiling_run.
Variables (src dst : string) (size_w size_h : Z) (ot : GDALDataType) (noData : value).

Local Abbreviation request := (translate_request src dst size_w size_h ot noData).
Local Abbreviation served := (write_tiles src dst size_w size_h ot noData).

Lemma write_tiles_log (jobs : list job) (w : World) :
  log (served jobs w) = log w ++ map request jobs.
Proof.
  revert w. induction jobs as [|jb jobs IH]; intros w; simpl.
  - by rewrite app_nil_r.
  - unfold served, write_tiles in *. simpl. rewrite IH. simpl.
    by rewrite <- app_assoc.
Qed.


Lemma write_tiles_mono (jobs : list job) (w : World) (p : string) :
  is_Some (fs w !! p) -> is_Some (fs (served jobs w) !! p).
Proof.
  revert w. induction jobs as [|jb jobs IH]; intros w Hp; simpl; [ done | ].
  apply IH. simpl. rewrite lookup_insert. case_decide; [ by eexists | done ].
Qed.

Lemma write_tiles_written (jobs : list job) (w : World) (jb : job) :
  In jb jobs -> is_Some (fs (served jobs w) !! tile_name dst (job_tile jb)).
Proof.
  revert w. induction jobs as [|jb' jobs IH]; intros w Hin; simpl; [ done | ].
  destruct Hin as [->|Hin]; [ | by apply IH ].
  apply write_tiles_mono. simpl. rewrite lookup_insert_eq. by eexists.
Qed.

Lemma number_from_ge (t : Z) (cells : list (Z * Z)) (jb : job) :
  In jb (number_from t cells) -> t <= job_tile jb.
Proof.
  revert t. induction cells as [|c cells IH]; intros t; simpl; [ done | ].
  intros [<-|Hin]; [ unfold job_tile; simpl; lia | ]. apply IH in Hin. lia.
Qed.

(** The loop body checks each tile's file in the world as it is by then; the
    files written earlier in the run are those of smaller indices, so the
    check gives what it would have given at the start. *)
Lemma run_cells (cells : list (Z * Z)) (t : Z) (w : World) :
  for_ cells
    (fun c tile => tiling_cell src dst size_w size_h (Some ot) noData c.1 c.2 tile) t w
  = (Ok (t + Z.of_nat (length cells)),
     served (List.filter (is_missing w dst) (number_from (t + 1) cells)) w).
Proof.
  revert t w. induction cells as [|c cells IH]; intros t w.
  - simpl. unfold ret. by rewrite Z.add_0_r.
  - cbn [for_ number_from List.filter].
    unfold bind at 1, tiling_cell at 1, os_path_isfile, read_file, bind, ret.
    unfold is_missing at 1. cbn [job_tile fst snd].
    destruct (fs w !! tile_name dst (t + 1)) as [f|] eqn:Hfile.
    + rewrite bool_decide_eq_true_2 by (by eexists). cbn [negb].
      rewrite IH. do 2 f_equal. cbn [length]. lia.
    + rewrite bool_decide_eq_false_2 by (by intros [? ?]). cbn [negb use_local].
      unfold library_call, emit, write_file, bind, ret. cbv beta iota. cbn [fs log].
      rewrite IH. f_equal; [ f_equal; cbn [length]; lia | ].
      cbn [write_tiles fold_left]. fold (write_tiles src dst size_w size_h ot noData).
      f_equal. apply List.filter_ext_in. intros jb Hin.
      apply number_from_ge in Hin. unfold is_missing. cbn [fs].
      rewrite lookup_insert_ne; [ done | ].
      intros Heq. apply tile_name_inj in Heq. lia.
Qed.
End tiling_run.

(** ** The cells visited are the tile grid *)

Lemma product_enum {A B} (fx : nat -> A) (fy : nat -> B) (nx ny : nat) :
  flat_map (fun x => map (pair x) (map fy (seq 0 ny))) (map fx (seq 0 nx))
  = map (fun k => (fx (k / ny)%nat, fy (k mod ny)%nat)) (seq 0 (nx * ny)).
Proof.
  induction nx as [|nx IH]; [ reflexivity | ].
  rewrite seq_S, map_app, flat_map_app, IH. simpl flat_map. rewrite app_nil_r.
  replace (S nx * ny)%nat with (nx * ny + ny)%nat by lia.
  rewrite seq_app, map_app. f_equal.
  rewrite (Nat.add_comm 0), <- (fmap_add_seq (nx * ny) 0 ny).
  change (fmap (A:=nat)) with (@map nat nat). rewrite !map_map.
  apply map_ext_in. intros b Hb. apply in_seq in Hb.
  f_equal; f_equal.
  - apply Nat.div_unique with b; lia.
  - apply Nat.mod_unique with nx; lia.
Qed.

Lemma number_from_map_seq (g : nat -> Z * Z) (t : Z) (a n : nat) :
  number_from t (map g (seq a n))
  = map (fun k => (t + Z.of_nat k - Z.of_nat a, (g k).1, (g k).2)) (seq a n).
Proof.
  revert t a. induction n as [|n IH]; intros t a; simpl; [ done | ].
  f_equal; [ do 2 f_equal; lia | ].
  rewrite IH. apply map_ext. intros k. do 2 f_equal. lia.
Qed.

Lemma cells_are_grid (W H size_w size_h : Z) :
  number_from 1
    (flat_map (fun i => map (pair i)
                          (map (fun k => size_h * Z.of_nat k)
                               (seq 0 (Z.to_nat (ceil_div H size_h)))))
              (map (fun k => size_w * Z.of_nat k)
                   (seq 0 (Z.to_nat (ceil_div W size_w)))))
  = tile_grid W H size_w size_h.
Proof.
  rewrite product_enum, number_from_map_seq. unfold tile_grid.
  apply map_ext. intros k. simpl. do 2 f_equal. lia.
Qed.

Lemma unpack_hw_shape (a : ndarray) : unpack_hw (shape a) = ret (height a, width a).
Proof. by destruct a. Qed.

(** What lines 200 to 223 do with an array: the requests for the tiles of
    the grid whose file is missing, in grid order, and nothing else. *)
Lemma tiling_from_run (im : ndarray) (src dst : string) (size_w size_h : Z)
    (dtype : string) (ot : GDALDataType) (noData : value) (w : World) :
  0 < size_w -> 0 < size_h -> select_outputType dtype = Some ot ->
  tiling_from (Some im) src dst size_w size_h dtype noData w
  = (Ok tt,
     write_tiles src dst size_w size_h ot noData
       (List.filter (is_missing w dst)
          (tile_grid (width im) (height im) size_w size_h)) w).
Proof.
  intros Hw Hh Hot. unfold tiling_from. rewrite Hot, unpack_hw_shape.
  unfold bind at 1. unfold ret at 1.
  unfold bind at 1. rewrite py_range_0 by done.
  unfold bind at 1.
  rewrite (for_ext _ _
             (fun i tile =>
                for_ (map (fun k => size_h * Z.of_nat k)
                          (seq 0 (Z.to_nat (ceil_div (height im) size_h))))
                     (fun j tile' =>
                        tiling_cell src dst size_w size_h (Some ot) noData i j tile')
                     tile))
    by (intros i tile w'; unfold bind; by rewrite py_range_0).
  rewrite for_nested, run_cells. unfold ret. simpl Z.add.
  by rewrite cells_are_grid.
Qed.

(** ** tiling: the grid requested, fresh and resumed *)

Lemma shape_nonneg (a : ndarray) : 0 <= height a /\ 0 <= width a.
Proof. destruct a; unfold height, width; simpl; lia. Qed.

Lemma ceil_div_nonneg (a b : Z) : 0 < b -> 0 <= a -> 0 <= ceil_div a b.
Proof. intros Hb Ha. pose proof (ceil_div_spec a b Hb). nia. Qed.

Lemma filter_all {A} (f : A -> bool) (l : list A) :
  (forall x, In x l -> f x = true) -> List.filter f l = l.
Proof.
  induction l as [|x l IH]; intros Hall; simpl; [ done | ].
  rewrite (Hall x) by (by left). f_equal. apply IH. intros y Hy. apply Hall. by right.
Qed.


(** The grid of a 1000 x 1000 source cut in 400 x 400 tiles: nine tiles,
    numbered down the columns. *)
Example tile_grid_1000_by_400 :
  tile_grid 1000 1000 400 400
  = [(1, 0, 0); (2, 0, 400); (3, 0, 800);
     (4, 400, 0); (5, 400, 400); (6, 400, 800);
     (7, 800, 0); (8, 800, 400); (9, 800, 800)].
Proof. vm_compute. reflexivity. Qed.

Example py_range_0_10_4 :
  fst (py_range 0 10 4 (mkWorld ∅ [])) = Ok [0; 4; 8].
Proof. vm_compute. reflexivity. Qed.

(** C2, as stated, fails on the window: for a 1000 x 1000 source cut in
    400 x 400 tiles the third tile is on the bottom edge, and the window
    requested for it is [0, 800, 400, 400], four hundred rows from row 800 on,
    which ends past row 1000. *)
Lemma tiling_edge_window_not_clipped :
  let im := Arr2 (replicate 1000 (replicate 1000 0)) in
  let w' := snd (tiling_from (Some im) "mosaic.tif" "out" 400 400 "Float32" VNone
                   (mkWorld ∅ [])) in
  (width im, height im) = (1000, 1000)
  /\ length (log w') = 9%nat
  /\ log w' !! 2%nat
     = Some (translate_request "mosaic.tif" "out" 400 400 GDT_Float32 VNone (3, 0, 800))
  /\ forallb (window_inside (width im) (height im)) (log w') = false.
Proof. repeat split; vm_compute; reflexivity. Qed.

(** C2, amended. Given the array read from a source of pixel size
    (width, height), tile sizes [size_w > 0] and [size_h > 0], a recognised
    pixel type, and no tile file there yet, lines 200 to 223 of [tiling]
    return normally having requested exactly
    [ceil(width / size_w) * ceil(height / size_h)] extractions, one per cell
    of the grid, in grid order with the width offset as the outer loop: the
    request of position [k] (from 0) writes [dst_{k+1}.tif] and asks for the
    window [(i, j, size_w, size_h)] with [i = size_w * (k / ny)] and
    [j = size_h * (k mod ny)], [ny] the number of tile rows. The window is of
    the full tile size on the edges too: [tiling] does not clip it. Every tile
    file exists afterwards. *)
Theorem tiling_from_fresh_grid (im : ndarray) (src dst : string)
    (size_w size_h : Z) (dtype : string) (ot : GDALDataType) (noData : value)
    (w : World) :
  0 < size_w -> 0 < size_h ->
  select_outputType dtype = Some ot ->
  (forall t, fs w !! tile_name dst t = None) ->
  let grid := tile_grid (width im) (height im) size_w size_h in
  let ny := Z.to_nat (ceil_div (height im) size_h) in
  let r := tiling_from (Some im) src dst size_w size_h dtype noData w in
  fst r = Ok tt
  /\ log (snd r) = log w ++ map (translate_request src dst size_w size_h ot noData) grid
  /\ length grid = Z.to_nat (ceil_div (width im) size_w * ceil_div (height im) size_h)
  /\ (forall k : nat, (k < length grid)%nat ->
        grid !! k = Some (Z.of_nat k + 1,
                          size_w * Z.of_nat (k / ny),
                          size_h * Z.of_nat (k mod ny)))
  /\ (forall jb, In jb grid -> is_Some (fs (snd r) !! tile_name dst (job_tile jb))).
Proof.
  intros Hw Hh Hot Hfresh grid ny r.
  assert (Hall : List.filter (is_missing w dst) grid = grid).
  { apply filter_all. intros jb _. unfold is_missing. rewrite Hfresh.
    rewrite bool_decide_eq_false_2; [ done | by intros [? ?] ]. }
  assert (Hr : r = (Ok tt, write_tiles src dst size_w size_h ot noData grid w)).
  { subst r. rewrite (tiling_from_run im src dst size_w size_h dtype ot noData w) by done.
    fold grid. by rewrite Hall. }
  rewrite Hr. cbn [fst snd].
  destruct (shape_nonneg im) as [HH HW].
  pose proof (ceil_div_nonneg (width im) size_w Hw HW).
  pose proof (ceil_div_nonneg (height im) size_h Hh HH).
  split; [ done | split; [ apply write_tiles_log | split; [ | split ] ] ].
  - subst grid. unfold tile_grid. rewrite length_map, length_seq. lia.
  - intros k Hk. subst grid ny. unfold tile_grid in *.
    rewrite length_map, length_seq in Hk.
    rewrite list_lookup_fmap, lookup_seq_lt by done. reflexivity.
  - intros jb Hin. by apply write_tiles_written.
Qed.

Lemma tiling_from_fresh_grid_witness :
  fst (tiling_from (Some (Arr2 [[0; 0; 0]; [0; 0; 0]])) "mosaic.tif" "out" 2 2
         "Float32" VNone (mkWorld ∅ []))
  = Ok tt.
Proof.
  exact (proj1 (tiling_from_fresh_grid (Arr2 [[0; 0; 0]; [0; 0; 0]])
                  "mosaic.tif" "out" 2 2 "Float32" GDT_Float32 VNone (mkWorld ∅ [])
                  eq_refl eq_refl eq_refl (fun t => lookup_empty _))).
Defined.



(** ** tiling, the call to asArray *)

(** C3. [tiling] reads the source with [GeoProcess.asArray(src)]: one argument
    for the parameters [self, path, band = None]. The call raises [TypeError]
    for the missing [path]; no tile is examined and no file is written. *)
Theorem tiling_stops_at_asArray_call (src dst : string) (size_w size_h : Z)
    (dtype : string) (noData : value) (w : World) :
  tiling src dst size_w size_h dtype noData w
  = (Exc (TypeError_missing "asArray" ["path"]), w).
Proof. reflexivity. Qed.

(** ** resizing *)

(** C6. Mixed parameters: when one of [width], [height] is set and one of
    [xRes], [yRes] is set, neither guard holds; [resizing] prints nothing,
    calls no warp, writes no file and raises nothing, whatever [dtype] is. *)
Theorem resizing_mixed_is_silent (src dst : string) (width height xRes yRes : value)
    (dtype : string) (w : World) :
  is_None width && is_None height = false ->
  is_None xRes && is_None yRes = false ->
  resizing src dst width height xRes yRes dtype w = (Ok tt, w).
Proof.
  intros Hdim Hres. unfold resizing.
  destruct (is_None xRes), (is_None yRes); try discriminate;
    destruct (is_None width), (is_None height); try discriminate; reflexivity.
Qed.

Lemma resizing_mixed_is_silent_witness :
  resizing "in.tif" "out.tif" (VInt 512) VNone VNone (VReal (1 # 2)) "Float32"
           (mkWorld ∅ [])
  = (Ok tt, mkWorld ∅ []).
Proof.
  exact (resizing_mixed_is_silent "in.tif" "out.tif" (VInt 512) VNone VNone
           (VReal (1 # 2)) "Float32" (mkWorld ∅ []) eq_refl eq_refl).
Defined.

(** C10, as stated, fails when the pixel type is not one of the four names:
    with the four parameters unset and [dtype = 'Int16'] the first guard
    holds, its line is printed, and the read of the unassigned [outputType]
    raises [UnboundLocalError]; no warp is invoked, not even once, and no
    file is written. *)
Lemma resizing_all_unset_unrecognised_dtype :
  let r := resizing "in.tif" "out.tif" VNone VNone VNone VNone "Int16"
             (mkWorld ∅ []) in
  select_outputType "Int16" = None
  /\ fst r = Exc (UnboundLocalError "outputType")
  /\ log (snd r) = [EPrint "New size : width = {} / height = {}" [VNone; VNone]]
  /\ List.filter (is_call "gdal.Warp") (log (snd r)) = []
  /\ fs (snd r) = ∅.
Proof. repeat split. Qed.

(** C10, amended. With all four of [width], [height], [xRes], [yRes] unset
    and a pixel type that is one of the four names (the default [Float32]
    is), both guards hold: [resizing] calls [gdal.Warp] twice on the same
    source and destination, first with [width = None, height = None], then
    with [xRes = None, yRes = None], and returns normally. *)
Theorem resizing_all_unset_warps_twice (src dst dtype : string)
    (ot : GDALDataType) (w : World) :
  select_outputType dtype = Some ot ->
  let r := resizing src dst VNone VNone VNone VNone dtype w in
  fst r = Ok tt
  /\ log (snd r)
     = log w ++
       [EPrint "New size : width = {} / height = {}" [VNone; VNone];
        warp_by_size src dst VNone VNone ot;
        EPrint "New resolution : xRes = {} / yRes = {}" [VNone; VNone];
        warp_by_resolution src dst VNone VNone ot].
Proof.
  intros Hot r. subst r. unfold resizing. rewrite Hot. cbn.
  unfold bind, emit, library_call, write_file, bind, emit, ret; cbn.
  rewrite <- !app_assoc. split; reflexivity.
Qed.

Lemma resizing_all_unset_warps_twice_witness :
  log (snd (resizing "in.tif" "out.tif" VNone VNone VNone VNone "Float32"
              (mkWorld ∅ [])))
  = [EPrint "New size : width = {} / height = {}" [VNone; VNone];
     warp_by_size "in.tif" "out.tif" VNone VNone GDT_Float32;
     EPrint "New resolution : xRes = {} / yRes = {}" [VNone; VNone];
     warp_by_resolution "in.tif" "out.tif" VNone VNone GDT_Float32].
Proof.
  exact (proj2 (resizing_all_unset_warps_twice "in.tif" "out.tif" "Float32"
                  GDT_Float32 (mkWorld ∅ []) eq_refl)).
Defined.

(** The two modes of [resizing], each with its one warp. *)
Lemma resizing_by_size (src dst : string) (width height : value) (dtype : string)
    (ot : GDALDataType) (w : World) :
  is_None width && is_None height = false ->
  select_outputType dtype = Some ot ->
  resizing src dst width height VNone VNone dtype w
  = (Ok tt,
     mkWorld (<[dst := FProduct (warp_by_size src dst width height ot)]> (fs w))
             (log w ++ [EPrint "New size : width = {} / height = {}" [width; height];
                        warp_by_size src dst width height ot])).
Proof.
  intros Hdim Hot. unfold resizing. rewrite Hot.
  destruct (is_None width), (is_None height); try discriminate; cbn;
    unfold bind, emit, library_call, write_file, bind, emit, ret; cbn;
    rewrite <- !app_assoc; reflexivity.
Qed.

Lemma resizing_by_resolution (src dst : string) (xRes yRes : value) (dtype : string)
    (ot : GDALDataType) (w : World) :
  is_None xRes && is_None yRes = false ->
  select_outputType dtype = Some ot ->
  resizing src dst VNone VNone xRes yRes dtype w
  = (Ok tt,
     mkWorld (<[dst := FProduct (warp_by_resolution src dst xRes yRes ot)]> (fs w))
             (log w ++ [EPrint "New resolution : xRes = {} / yRes = {}" [xRes; yRes];
                        warp_by_resolution src dst xRes yRes ot])).
Proof.
  intros Hres Hot. unfold resizing. rewrite Hot.
  destruct (is_None xRes), (is_None yRes); try discriminate; cbn;
    unfold bind, emit, library_call, write_file, bind, emit, ret; cbn;
    rewrite <- !app_assoc; reflexivity.
Qed.

(** C7, as stated, fails: the warp of a target-dimension resize names
    selector 3, which the library reads as the cubic B-spline algorithm; cubic
    convolution is selector 2. *)
Lemma resizing_warp_is_not_cubic_convolution :
  let w' := snd (resizing "in.tif" "out.tif" (VInt 512) (VInt 512) VNone VNone
                   "Float32" (mkWorld ∅ [])) in
  exists e, e ∈ log w' /\ is_call "gdal.Warp" e = true /\
            warp_algorithm e = Some GRA_CubicSpline /\
            warp_algorithm e <> Some GRA_Cubic.
Proof.
  exists (warp_by_size "in.tif" "out.tif" (VInt 512) (VInt 512) GDT_Float32).
  split; [ | split; [ reflexivity | split; [ reflexivity | discriminate ] ] ].
  cbn. apply list_elem_of_In. right. left. reflexivity.
Qed.

(** C7, amended. Every warp that [resizing] performs, in target-dimension mode
    and in target-resolution mode alike, names the same fixed resampling
    selector 3, the library's cubic B-spline algorithm; and each mode does
    perform its warp with it. *)
Theorem resizing_warps_select_cubic_spline (src dst : string)
    (width height xRes yRes : value) (dtype : string) (w : World) :
  (exists evs, log (snd (resizing src dst width height xRes yRes dtype w)) = log w ++ evs
               /\ Forall (warp_selects GRA_CubicSpline) evs)
  /\ (forall ot, select_outputType dtype = Some ot ->
        xRes = VNone -> yRes = VNone -> is_None width && is_None height = false ->
        warp_by_size src dst width height ot
          ∈ log (snd (resizing src dst width height xRes yRes dtype w)))
  /\ (forall ot, select_outputType dtype = Some ot ->
        width = VNone -> height = VNone -> is_None xRes && is_None yRes = false ->
        warp_by_resolution src dst xRes yRes ot
          ∈ log (snd (resizing src dst width height xRes yRes dtype w))).
Proof.
  split; [ | split ].
  - unfold resizing.
    destruct (select_outputType dtype) as [ot|];
      destruct (is_None xRes), (is_None yRes), (is_None width), (is_None height);
      cbn; unfold bind, emit, library_call, write_file, bind, emit, ret, raise; cbn;
      rewrite <- ?app_assoc; cbn;
      lazymatch goal with
      | |- exists evs, log w ++ ?l = _ /\ _ => exists l
      | |- exists evs, log w = _ /\ _ => exists []; rewrite app_nil_r
      end;
      (split; [ reflexivity | ]);
      repeat constructor; try discriminate.
  - intros ot Hot -> -> Hdim.
    rewrite (resizing_by_size src dst width height dtype ot w Hdim Hot). cbn.
    apply elem_of_app. right. apply list_elem_of_In. right. left. reflexivity.
  - intros ot Hot -> -> Hres.
    rewrite (resizing_by_resolution src dst xRes yRes dtype ot w Hres Hot). cbn.
    apply elem_of_app. right. apply list_elem_of_In. right. left. reflexivity.
Qed.

(** ** save_tiff: what is written *)

Lemma on_band_ok (ds : Dataset) (band : Z) (m : nat) (method : string)
    (f : Band -> M Band) (b b' : Band) (w : World) :
  band = Z.of_nat m + 1 ->
  raster_bands ds !! m = Some b ->
  f b w = (Ok b', w) ->
  on_band ds band method f w
  = (Ok (with_bands ds (<[m := b']> (raster_bands ds))), w).
Proof.
  intros -> Hb Hf. unfold on_band, GetRasterBand, RasterCount.
  pose proof (lookup_lt_Some _ _ _ Hb) as Hlt.
  replace ((1 <=? Z.of_nat m + 1) && (Z.of_nat m + 1 <=? Z.of_nat (length (raster_bands ds))))
    with true by (symmetry; apply andb_true_iff; split; apply Z.leb_le; lia).
  replace (Z.to_nat (Z.of_nat m + 1 - 1)) with m by lia.
  rewrite Hb. unfold bind. rewrite Hf. reflexivity.
Qed.

(** One turn of the band loop: band [m + 1] gets the no-data marker and the
    slice [m] of the array. *)
Lemma save_band_step (a : list (list (list pixel))) (nodata : Q) (ds : Dataset)
    (m : nat) (w : World) :
  (m < length (raster_bands ds))%nat ->
  (outdata <- on_band ds (Z.of_nat m + 1) "SetNoDataValue" (SetNoDataValue nodata) ;;
   plane_ <- slice_last (Arr3 a) (Z.of_nat m + 1 - 1) ;;
   on_band outdata (Z.of_nat m + 1) "WriteArray" (WriteArray plane_)) w
  = (Ok (with_bands ds (<[m := mkBand (band_plane a m) (Some nodata)]> (raster_bands ds))),
     w).
Proof.
  intros Hm. destruct (lookup_lt_is_Some_2 _ _ Hm) as [b Hb].
  unfold bind at 1.
  rewrite (on_band_ok ds _ m _ _ b (mkBand (band_data b) (Some nodata)) w eq_refl Hb eq_refl).
  unfold bind at 1, slice_last, ret at 1.
  replace (Z.to_nat (Z.of_nat m + 1 - 1)) with m by lia.
  rewrite (on_band_ok _ _ m _ _ (mkBand (band_data b) (Some nodata))
             (mkBand (band_plane a m) (Some nodata)) w eq_refl).
  - unfold with_bands. cbn [raster_bands RasterXSize RasterYSize raster_type
                            GeoTransform Projection].
    by rewrite list_insert_insert_eq.
  - cbn [with_bands raster_bands]. by apply list_lookup_insert_eq.
  - reflexivity.
Qed.

(** The band loop over bands [m + 1 .. m + cnt]. *)
Lemma save_bands_loop (a : list (list (list pixel))) (nodata : Q) (cnt m : nat)
    (ds : Dataset) (w : World) :
  (m + cnt <= length (raster_bands ds))%nat ->
  for_ (map (fun k => 1 + Z.of_nat k * 1) (seq m cnt))
    (fun band outdata =>
       outdata <- on_band outdata band "SetNoDataValue" (SetNoDataValue nodata) ;;
       plane_ <- slice_last (Arr3 a) (band - 1) ;;
       on_band outdata band "WriteArray" (WriteArray plane_)) ds w
  = (Ok (with_bands ds
           (fold_left (fun bs k => <[k := mkBand (band_plane a k) (Some nodata)]> bs)
                      (seq m cnt) (raster_bands ds))), w).
Proof.
  revert m ds. induction cnt as [|cnt IH]; intros m ds Hlen.
  - simpl. unfold ret. by destruct ds.
  - cbn [seq map for_ fold_left]. unfold bind at 1.
    replace (1 + Z.of_nat m * 1) with (Z.of_nat m + 1) by lia.
    rewrite save_band_step by lia.
    rewrite IH by (cbn [with_bands raster_bands]; rewrite length_insert; lia).
    reflexivity.
Qed.

(** Writing every position of a list in turn leaves the written values. *)
Lemma fold_insert_all {A} (f : nat -> A) (cnt m : nat) (l : list A) (i : nat) :
  fold_left (fun bs k => <[k := f k]> bs) (seq m cnt) l !! i
  = if decide (m <= i < m + cnt)%nat then f <$> (const i <$> l !! i) else l !! i.
Proof.
  revert m l. induction cnt as [|cnt IH]; intros m l; simpl.
  - case_decide; [ lia | done ].
  - rewrite IH. destruct (decide (i = m)) as [->|Hne].
    + rewrite decide_False by lia. rewrite decide_True by lia.
      destruct (decide (m < length l)%nat) as [Hlt|Hge].
      * rewrite list_lookup_insert_eq by done.
        destruct (lookup_lt_is_Some_2 l m Hlt) as [x ->]. reflexivity.
      * rewrite list_insert_ge by lia.
        rewrite (lookup_ge_None_2 l m) by lia. reflexivity.
    + rewrite list_lookup_insert_ne by done.
      repeat case_decide; try lia; reflexivity.
Qed.

Lemma fold_insert_all_eq {A} (f : nat -> A) (l : list A) :
  fold_left (fun bs k => <[k := f k]> bs) (seq 0 (length l)) l
  = map f (seq 0 (length l)).
Proof.
  apply list_eq. intros i. rewrite fold_insert_all, list_lookup_fmap.
  destruct (decide (i < length l)%nat) as [Hlt|Hge].
  - rewrite decide_True by lia. rewrite lookup_seq_lt by done.
    destruct (lookup_lt_is_Some_2 l i Hlt) as [x ->]. reflexivity.
  - rewrite decide_False by lia. rewrite lookup_seq_ge by lia.
    by rewrite (lookup_ge_None_2 l i) by lia.
Qed.

Lemma py_range_bands (n : nat) (w : World) :
  py_range 1 (Z.of_nat n + 1) 1 w
  = (Ok (map (fun k => 1 + Z.of_nat k * 1) (seq 0 n)), w).
Proof.
  unfold py_range. cbn [Z.eqb Z.ltb Z.compare].
  rewrite range_up_closed by lia. unfold ret. do 4 f_equal.
  unfold ceil_div. rewrite Z.div_1_r. lia.
Qed.

(** A complete run of [save_tiff]: the references open, the pixel type is
    one of the four, and the array is of rank 2 or of rank 3 with two bands
    or more. *)
Lemma save_tiff_run (dst_filename : string) (nparray : ndarray)
    (ref_proj ref_geom dtype : string) (nodata_value : Q)
    (pr ge : Dataset) (ot : GDALDataType) (w : World) :
  sliced_by_save_tiff nparray ->
  decode (fs w !! ref_proj) = Some pr ->
  decode (fs w !! ref_geom) = Some ge ->
  select_outputType dtype = Some ot ->
  save_tiff dst_filename nparray ref_proj ref_geom dtype nodata_value w
  = (Ok tt,
     mkWorld (<[dst_filename :=
                  FRaster (saved_raster nparray ot nodata_value
                             (GeoTransform ge) (Projection pr))]> (fs w))
             (log w)).
Proof.
  intros Hok Hpr Hge Hot.
  destruct nparray as [p|a].
  - unfold save_tiff, gdal_Open, read_file, bind, ret. rewrite Hpr, Hge, Hot.
    cbn [shape length]. change (Z.of_nat 2) with 2.
    cbn -[replicate Z.to_nat on_band].
    change (Z.to_nat 1) with 1%nat. cbn [replicate].
    erewrite (on_band_ok _ 1 0); [ | reflexivity | reflexivity | reflexivity ].
    erewrite (on_band_ok _ 1 0); [ | reflexivity | reflexivity | reflexivity ].
    unfold FlushCache, write_file. cbn. rewrite insert_insert_eq. reflexivity.
  - cbn in Hok. set (n := length (hd [] (hd [] a))) in *.
    unfold save_tiff, gdal_Open, read_file. 
    unfold bind at 1. unfold bind at 1. unfold ret at 1 2. rewrite Hpr.
    unfold bind at 1. unfold bind at 1. unfold ret at 1 2. rewrite Hge. rewrite Hot.
    cbn [shape length]. change (Z.of_nat 3) with 3. fold n.
    cbn [Z.eqb Pos.eqb]. unfold bind at 1. cbv beta iota.
    unfold use_local. unfold bind at 1. unfold ret at 1. cbv beta iota.
    unfold Driver_Create, write_file. unfold bind at 1. unfold bind at 1.
    unfold ret at 1. cbv beta iota.
    unfold method_of at 1. unfold bind at 1. unfold ret at 1. cbv beta iota.
    unfold method_of at 1. unfold bind at 1. unfold ret at 1. cbv beta iota.
    replace (1 <? Z.of_nat n) with true by (symmetry; apply Z.ltb_lt; lia).
    unfold bind at 1. unfold bind at 1. rewrite py_range_bands.
    rewrite save_bands_loop
      by (cbn [SetProjection SetGeoTransform raster_bands];
          rewrite length_replicate; lia).
    unfold FlushCache, write_file.
    cbn [SetProjection SetGeoTransform with_bands raster_bands RasterXSize
         RasterYSize raster_type GeoTransform Projection fs log].
    rewrite insert_insert_eq. rewrite Nat2Z.id.
    pose proof (fold_insert_all_eq
                  (fun k => mkBand (band_plane a k) (Some nodata_value))
                  (replicate n (mkBand (replicate (Z.to_nat (Z.of_nat (length a)))
                                          (replicate (Z.to_nat (Z.of_nat (length (hd [] a)))) 0))
                                       None))) as Hfold.
    rewrite length_replicate in Hfold. rewrite Hfold.
    unfold saved_raster, planes_of, band_count, width, height.
    cbn [shape nth]. fold n. rewrite !Nat2Z.id, map_map. reflexivity.
Qed.

(** C8. On a rank-3 array with a single band, here of shape (1, 1, 1),
    [save_tiff] creates a one-band raster and takes the branch for one band,
    where it hands the whole rank-3 array to [WriteArray] instead of the slice
    [nparray[:,:,0]]. The band writer refuses it: the call ends in
    [ValueError] before [FlushCache], and the file holds the blank raster as
    created, not the array's plane. *)
Theorem save_tiff_rank3_single_band :
  let nparray := Arr3 [[[7]]] in
  let r := save_tiff "out.tif" nparray "ref.tif" "ref.tif" "Float32" (-99999 # 10)
             reference_world in
  band_count nparray = 1
  /\ fst r = Exc (ValueError "expected array of dim 2")
  /\ fs (snd r) !! "out.tif"
     = Some (FRaster (mkDataset 1 1 GDT_Float32 [mkBand [[0]] None]
                                default_geotransform ""))
  /\ planes_of nparray = [[[7]]].
Proof. repeat split; vm_compute; reflexivity. Qed.

Lemma representable_0 (ot : GDALDataType) : representable ot 0.
Proof. destruct ot; cbn; lia. Qed.

Lemma band_plane_representable (ot : GDALDataType) (a : list (list (list pixel)))
    (k : nat) :
  Forall (Forall (Forall (representable ot))) a ->
  plane_pixels (representable ot) (band_plane a k).
Proof.
  intros Ha. unfold plane_pixels, band_plane.
  apply List.Forall_map. eapply Forall_impl; [ exact Ha | ].
  intros row Hrow. cbn beta.
  apply List.Forall_map. eapply Forall_impl; [ exact Hrow | ].
  intros cell Hcell. cbn beta. rewrite nth_lookup.
  destruct (cell !! k) as [v|] eqn:Hv; cbn.
  - by eapply Forall_lookup_1.
  - apply representable_0.
Qed.

(** X2. What a complete write leaves, for the arrays of rank 2 and those of
    rank 3 with two bands or more, when the array is not empty and every
    pixel value is one that the selected pixel type holds exactly: a raster
    of the array's width and height with as many bands as the rank gives, the
    geotransform of the geometry reference and the projection of the
    projection reference, the no-data marker on every band, and band [k + 1]
    holding the slice [k] of the last axis, every value of it within the
    raster's pixel type; and it is in the file when the call returns. *)
Theorem save_tiff_writes (dst_filename : string) (nparray : ndarray)
    (ref_proj ref_geom dtype : string) (nodata_value : Q)
    (pr ge : Dataset) (ot : GDALDataType) (w : World) :
  sliced_by_save_tiff nparray ->
  0 < width nparray -> 0 < height nparray ->
  all_pixels (representable ot) nparray ->
  decode (fs w !! ref_proj) = Some pr ->
  decode (fs w !! ref_geom) = Some ge ->
  select_outputType dtype = Some ot ->
  let r := save_tiff dst_filename nparray ref_proj ref_geom dtype nodata_value w in
  fst r = Ok tt /\
  exists out,
    fs (snd r) !! dst_filename = Some (FRaster out)
    /\ RasterCount out = band_count nparray
    /\ RasterXSize out = width nparray /\ RasterYSize out = height nparray
    /\ 0 < RasterXSize out /\ 0 < RasterYSize out
    /\ raster_type out = ot
    /\ GeoTransform out = GeoTransform ge
    /\ Projection out = Projection pr
    /\ Forall (fun b => band_nodata b = Some nodata_value) (raster_bands out)
    /\ map band_data (raster_bands out) = planes_of nparray
    /\ Forall (fun b => plane_pixels (representable (raster_type out)) (band_data b))
              (raster_bands out).
Proof.
  intros Hok Hwidth Hheight Hrep Hpr Hge Hot r. subst r.
  rewrite (save_tiff_run dst_filename nparray ref_proj ref_geom dtype nodata_value
             pr ge ot w Hok Hpr Hge Hot).
  cbn [fst snd fs]. split; [ done | ].
  eexists. split; [ apply lookup_insert_eq | ].
  unfold saved_raster, RasterCount.
  cbn [raster_bands RasterXSize RasterYSize raster_type GeoTransform Projection].
  repeat split; try assumption.
  - rewrite length_map. destruct nparray as [p|a]; [ reflexivity | ].
    unfold planes_of. rewrite length_map, length_seq.
    cbn in Hok. cbn. lia.
  - apply Forall_forall. intros b Hb. apply list_elem_of_In, in_map_iff in Hb.
    by destruct Hb as (p & <- & _).
  - rewrite map_map. cbn [band_data]. apply map_id.
  - apply List.Forall_map. cbn [band_data].
    destruct nparray as [p|a]; unfold planes_of.
    + by repeat constructor.
    + apply List.Forall_map. apply Forall_forall. intros k _.
      by apply band_plane_representable.
Qed.

Lemma save_tiff_writes_witness :
  fst (save_tiff "out.tif" (Arr3 [[[1; 2]; [3; 4]]]) "ref.tif" "ref.tif" "UInt16" 0%Q
         reference_world)
  = Ok tt.
Proof.
  assert (Hrep : all_pixels (representable GDT_UInt16) (Arr3 [[[1; 2]; [3; 4]]]))
    by (repeat constructor; cbn; lia).
  exact (proj1 (save_tiff_writes "out.tif" (Arr3 [[[1; 2]; [3; 4]]]) "ref.tif" "ref.tif"
                  "UInt16" 0%Q reference_raster reference_raster GDT_UInt16
                  reference_world eq_refl eq_refl eq_refl Hrep
                  eq_refl eq_refl eq_refl)).
Defined.

(** C9, as stated, fails: an array of one row and three columns is written
    against a geometry reference of two rows and two columns; [save_tiff]
    returns normally and the output raster is there, three columns by one
    row. *)
Lemma save_tiff_accepts_mismatched_shape :
  let nparray := Arr2 [[7; 8; 9]] in
  let r := save_tiff "out.tif" nparray "ref.tif" "ref.tif" "Float32" (-99999 # 10)
             reference_world in
  decode (fs reference_world !! "ref.tif") = Some reference_raster
  /\ (width nparray, height nparray) = (3, 1)
  /\ (RasterXSize reference_raster, RasterYSize reference_raster) = (2, 2)
  /\ fst r = Ok tt
  /\ fs (snd r) !! "out.tif"
     = Some (FRaster (mkDataset 3 1 GDT_Float32
                        [mkBand [[7; 8; 9]] (Some (-99999 # 10))]
                        (GeoTransform reference_raster) "EPSG:32631")).
Proof. repeat split; vm_compute; reflexivity. Qed.

(** C9, amended. [save_tiff] does not compare the array's spatial dimensions
    with the raster dimensions of the geometry reference: whatever those are,
    the call returns normally (for the arrays it writes: rank 2, or rank 3
    with two bands or more), and the output raster has the array's own width
    and height together with the reference's geotransform. *)
Theorem save_tiff_no_shape_check (dst_filename : string) (nparray : ndarray)
    (ref_proj ref_geom dtype : string) (nodata_value : Q)
    (pr ge : Dataset) (ot : GDALDataType) (w : World) :
  sliced_by_save_tiff nparray ->
  decode (fs w !! ref_proj) = Some pr ->
  decode (fs w !! ref_geom) = Some ge ->
  select_outputType dtype = Some ot ->
  let r := save_tiff dst_filename nparray ref_proj ref_geom dtype nodata_value w in
  fst r = Ok tt /\
  exists out,
    fs (snd r) !! dst_filename = Some (FRaster out)
    /\ RasterXSize out = width nparray
    /\ RasterYSize out = height nparray
    /\ GeoTransform out = GeoTransform ge.
Proof.
  intros Hok Hpr Hge Hot r. subst r.
  rewrite (save_tiff_run dst_filename nparray ref_proj ref_geom dtype nodata_value
             pr ge ot w Hok Hpr Hge Hot).
  cbn [fst snd fs]. split; [ done | ].
  eexists. split; [ apply lookup_insert_eq | ]. repeat split.
Qed.

Lemma save_tiff_no_shape_check_witness :
  fst (save_tiff "out.tif" (Arr2 [[7; 8; 9]]) "ref.tif" "ref.tif" "Float32"
         (-99999 # 10) reference_world)
  = Ok tt.
Proof.
  exact (proj1 (save_tiff_no_shape_check "out.tif" (Arr2 [[7; 8; 9]]) "ref.tif"
                  "ref.tif" "Float32" (-99999 # 10) reference_raster reference_raster
                  GDT_Float32 reference_world I eq_refl eq_refl eq_refl)).
Defined.

(** * Further properties *)

(** ** tiling: unrecognised pixel type, degenerate tile sizes, a second run *)

Section tiling_unbound.
Variables (src dst : string) (size_w size_h : Z) (noData : value).

(** With [outputType] unassigned the loop goes on as long as the tiles it
    meets are there, and stops at the first one that is not. *)
Lemma run_cells_unbound (cells : list (Z * Z)) (t : Z) (w : World) :
  for_ cells
    (fun c tile => tiling_cell src dst size_w size_h None noData c.1 c.2 tile) t w
  = (if forallb (is_present w dst) (number_from (t + 1) cells)
     then Ok (t + Z.of_nat (length cells))
     else Exc (UnboundLocalError "outputType"), w).
Proof.
  revert t. induction cells as [|c cells IH]; intros t.
  - simpl. unfold ret. by rewrite Z.add_0_r.
  - cbn [for_ number_from forallb].
    unfold bind at 1, tiling_cell at 1, os_path_isfile, read_file, bind, ret.
    unfold is_present at 1, is_missing at 1. cbn [job_tile fst snd].
    destruct (fs w !! tile_name dst (t + 1)) as [f|] eqn:Hfile.
    + rewrite bool_decide_eq_true_2 by (by eexists). cbn [negb andb].
      rewrite IH. cbn [length].
      replace (t + 1 + Z.of_nat (length cells)) with (t + Z.of_nat (S (length cells)))
        by lia.
      reflexivity.
    + rewrite bool_decide_eq_false_2 by (by intros [? ?]). reflexivity.
Qed.
End tiling_unbound.

(** X3. With a pixel type that is not one of the four names, lines 200 to
    223 of [tiling] still return normally when every tile of the grid has its
    file already; otherwise they raise [UnboundLocalError] for [outputType]
    at the first missing tile. Either way nothing is requested or written. *)
Theorem tiling_from_unrecognised_dtype (im : ndarray) (src dst : string)
    (size_w size_h : Z) (dtype : string) (noData : value) (w : World) :
  0 < size_w -> 0 < size_h ->
  select_outputType dtype = None ->
  tiling_from (Some im) src dst size_w size_h dtype noData w
  = (if forallb (is_present w dst) (tile_grid (width im) (height im) size_w size_h)
     then Ok tt
     else Exc (UnboundLocalError "outputType"), w).
Proof.
  intros Hw Hh Hot. unfold tiling_from. rewrite Hot, unpack_hw_shape.
  unfold bind at 1. unfold ret at 1.
  unfold bind at 1. rewrite py_range_0 by done.
  unfold bind at 1.
  rewrite (for_ext _ _
             (fun i tile =>
                for_ (map (fun k => size_h * Z.of_nat k)
                          (seq 0 (Z.to_nat (ceil_div (height im) size_h))))
                     (fun j tile' =>
                        tiling_cell src dst size_w size_h None noData i j tile')
                     tile))
    by (intros i tile w'; unfold bind; by rewrite py_range_0).
  rewrite for_nested, run_cells_unbound. simpl Z.add. rewrite cells_are_grid.
  by destruct (forallb _ _).
Qed.

Lemma tiling_from_unrecognised_dtype_witness :
  tiling_from (Some (Arr2 [[0; 0; 0]; [0; 0; 0]])) "mosaic.tif" "out" 2 2
    "float32" VNone (mkWorld ∅ [])
  = (Exc (UnboundLocalError "outputType"), mkWorld ∅ []).
Proof.
  exact (tiling_from_unrecognised_dtype (Arr2 [[0; 0; 0]; [0; 0; 0]])
           "mosaic.tif" "out" 2 2 "float32" VNone (mkWorld ∅ [])
           eq_refl eq_refl eq_refl).
Defined.

Lemma for_skip {A S} (xs : list A) (body : A -> S -> M S) (s : S) (w : World) :
  (forall x, body x s w = (Ok s, w)) -> for_ xs body s w = (Ok s, w).
Proof.
  intros Hskip. induction xs as [|x xs IH]; simpl; [ done | ].
  unfold bind. by rewrite Hskip.
Qed.

Lemma py_range_0_negative (stop step : Z) (w : World) :
  0 <= stop -> step < 0 -> py_range 0 stop step w = (Ok [], w).
Proof.
  intros Hstop Hstep. unfold py_range.
  destruct (Z.eqb_spec step 0) as [?|_]; [ lia | ].
  destruct (Z.ltb_spec 0 step) as [?|_]; [ lia | ].
  replace (Z.to_nat (0 - stop)) with 0%nat by lia. reflexivity.
Qed.

(** X4. Tile sizes that are not positive. A zero [size_w] is a [ValueError]
    of [range] before any tile is looked at; so is a zero [size_h], as soon
    as the source has a column to start from. A negative [size_w], or a
    negative [size_h], makes the loop empty: the call returns normally and
    requests nothing. In every case the world is left as it was. *)
Theorem tiling_from_degenerate_sizes (im : ndarray) (src dst : string)
    (size_w size_h : Z) (dtype : string) (noData : value) (w : World) :
  (size_w = 0 ->
     tiling_from (Some im) src dst size_w size_h dtype noData w
     = (Exc (ValueError "range() arg 3 must not be zero"), w))
  /\ (0 < size_w -> size_h = 0 -> 0 < width im ->
        tiling_from (Some im) src dst size_w size_h dtype noData w
        = (Exc (ValueError "range() arg 3 must not be zero"), w))
  /\ (size_w < 0 \/ (0 < size_w /\ size_h < 0) ->
        tiling_from (Some im) src dst size_w size_h dtype noData w = (Ok tt, w)).
Proof.
  destruct (shape_nonneg im) as [HH HW].
  split; [ | split ].
  - intros ->. unfold tiling_from. rewrite unpack_hw_shape. reflexivity.
  - intros Hw -> Hwidth. unfold tiling_from. rewrite unpack_hw_shape.
    unfold bind at 1. unfold ret at 1.
    unfold bind at 1. rewrite py_range_0 by done.
    pose proof (ceil_div_pos (width im) size_w Hw Hwidth) as Hpos.
    destruct (Z.to_nat (ceil_div (width im) size_w)) as [|n] eqn:Hn; [ lia | ].
    reflexivity.
  - intros [Hw|[Hw Hh]]; unfold tiling_from; rewrite unpack_hw_shape;
      unfold bind at 1; unfold ret at 1; unfold bind at 1.
    + by rewrite py_range_0_negative.
    + rewrite py_range_0 by done. unfold bind at 1.
      rewrite for_skip; [ done | ].
      intros i. unfold bind. by rewrite py_range_0_negative.
Qed.

Lemma filter_none {A} (f : A -> bool) (l : list A) :
  (forall x, In x l -> f x = false) -> List.filter f l = [].
Proof.
  induction l as [|x l IH]; intros Hnone; simpl; [ done | ].
  rewrite (Hnone x) by (by left). apply IH. intros y Hy. apply Hnone. by right.
Qed.

(** X5. A second run changes nothing: after lines 200 to 223 of [tiling]
    have run once, running them again with the same arguments requests no
    extraction and leaves every file and the log as the first run left
    them. *)
Theorem tiling_from_second_run (im : ndarray) (src dst : string)
    (size_w size_h : Z) (dtype : string) (ot : GDALDataType) (noData : value)
    (w : World) :
  0 < size_w -> 0 < size_h ->
  select_outputType dtype = Some ot ->
  let w1 := snd (tiling_from (Some im) src dst size_w size_h dtype noData w) in
  tiling_from (Some im) src dst size_w size_h dtype noData w1 = (Ok tt, w1).
Proof.
  intros Hw Hh Hot w1. subst w1.
  rewrite (tiling_from_run im src dst size_w size_h dtype ot noData w) by done.
  cbn [snd]. rewrite (tiling_from_run im src dst size_w size_h dtype ot noData) by done.
  set (grid := tile_grid (width im) (height im) size_w size_h).
  set (w1 := write_tiles src dst size_w size_h ot noData
               (List.filter (is_missing w dst) grid) w).
  replace (List.filter (is_missing w1 dst) grid) with (@nil job); [ done | ].
  symmetry. apply filter_none. intros jb Hin.
  unfold is_missing. apply negb_false_iff, bool_decide_eq_true_2.
  destruct (is_missing w dst jb) eqn:Hmiss.
  - apply (write_tiles_written src dst size_w size_h ot noData).
    apply List.filter_In. by split.
  - apply (write_tiles_mono src dst size_w size_h ot noData). unfold is_missing in Hmiss.
    apply negb_false_iff, bool_decide_eq_true_1 in Hmiss. done.
Qed.

Lemma tiling_from_second_run_witness :
  let w1 := snd (tiling_from (Some (Arr2 [[0; 0; 0]; [0; 0; 0]])) "mosaic.tif" "out"
                   2 2 "Float32" VNone (mkWorld ∅ [])) in
  tiling_from (Some (Arr2 [[0; 0; 0]; [0; 0; 0]])) "mosaic.tif" "out" 2 2 "Float32"
    VNone w1
  = (Ok tt, w1).
Proof.
  exact (tiling_from_second_run (Arr2 [[0; 0; 0]; [0; 0; 0]]) "mosaic.tif" "out"
           2 2 "Float32" GDT_Float32 VNone (mkWorld ∅ []) eq_refl eq_refl eq_refl).
Defined.

(** ** The pixel-type names *)

(** X6. The four [if]s select a pixel type for exactly the names
    [Float32], [Float64], [UInt16] and [Byte], spelled so, each giving the
    type of its name; for every other string [outputType] stays unassigned. *)
Theorem select_outputType_names (dtype : string) :
  (forall ot, select_outputType dtype = Some ot <->
              (dtype, ot) ∈ [("Float32", GDT_Float32); ("Float64", GDT_Float64);
                             ("UInt16", GDT_UInt16); ("Byte", GDT_Byte)])
  /\ (select_outputType dtype = None <->
      dtype ∉ ["Float32"; "Float64"; "UInt16"; "Byte"]).
Proof.
  split.
  - intros ot. split.
    + intros H. apply select_outputType_cases in H as [[-> ->]|[[-> ->]|[[-> ->]|[-> ->]]]];
        set_solver.
    + intros H. repeat (apply elem_of_cons in H as [[= -> ->]|H]; [ reflexivity | ]).
      by apply elem_of_nil in H.
  - split.
    + intros Hnone Hin.
      repeat (apply elem_of_cons in Hin as [->|Hin]; [ discriminate | ]).
      by apply elem_of_nil in Hin.
    + intros Hnot. destruct (select_outputType dtype) as [ot|] eqn:Hsel; [ | done ].
      apply select_outputType_cases in Hsel as [[-> ->]|[[-> ->]|[[-> ->]|[-> ->]]]];
        exfalso; apply Hnot; set_solver.
Qed.

(** ** resizing: how many warps, and an unrecognised pixel type *)

(** X7. With a recognised pixel type [resizing] never fails, and the number
    of warps it performs is the number of guards that hold: one for [xRes] and
    [yRes] both unset, one for [width] and [height] both unset, so none, one
    or two. Of the files it changes at most the one at [dst]. *)
Theorem resizing_warp_count (src dst : string) (width height xRes yRes : value)
    (dtype : string) (ot : GDALDataType) (w : World) :
  select_outputType dtype = Some ot ->
  let r := resizing src dst width height xRes yRes dtype w in
  fst r = Ok tt
  /\ (exists evs,
        log (snd r) = log w ++ evs /\
        length (List.filter (is_call "gdal.Warp") evs)
        = ((if is_None xRes && is_None yRes then 1 else 0)
           + (if is_None width && is_None height then 1 else 0))%nat)
  /\ (forall p, p <> dst -> fs (snd r) !! p = fs w !! p).
Proof.
  intros Hot r. subst r. unfold resizing. rewrite Hot.
  destruct (is_None xRes), (is_None yRes), (is_None width), (is_None height);
    cbn; unfold bind, emit, library_call, write_file, bind, emit, ret; cbn;
    rewrite <- ?app_assoc; cbn;
    (split; [ reflexivity | split ]);
    try (intros p Hp; rewrite ?lookup_insert_ne by done; reflexivity);
    lazymatch goal with
    | |- exists evs, log w ++ ?l = _ /\ _ => exists l; split; reflexivity
    | |- exists evs, log w = _ /\ _ => exists []; rewrite app_nil_r; split; reflexivity
    end.
Qed.

Lemma resizing_warp_count_witness :
  fst (resizing "in.tif" "out.tif" (VInt 512) (VInt 256) VNone VNone "Byte"
         (mkWorld ∅ []))
  = Ok tt.
Proof.
  exact (proj1 (resizing_warp_count "in.tif" "out.tif" (VInt 512) (VInt 256)
                  VNone VNone "Byte" GDT_Byte (mkWorld ∅ []) eq_refl)).
Defined.

(** X8. With a pixel type that is not one of the four names, and parameters
    for which a guard holds, [resizing] prints the line of the first guard
    that holds and then raises [UnboundLocalError] for [outputType]: no warp
    is performed and no file is written. *)
Theorem resizing_unrecognised_dtype (src dst : string)
    (width height xRes yRes : value) (dtype : string) (w : World) :
  select_outputType dtype = None ->
  (is_None xRes && is_None yRes) || (is_None width && is_None height) = true ->
  resizing src dst width height xRes yRes dtype w
  = (Exc (UnboundLocalError "outputType"),
     mkWorld (fs w)
       (log w ++
        [if is_None xRes && is_None yRes
         then EPrint "New size : width = {} / height = {}" [width; height]
         else EPrint "New resolution : xRes = {} / yRes = {}" [xRes; yRes]])).
Proof.
  intros Hot Hguard. unfold resizing. rewrite Hot.
  destruct (is_None xRes), (is_None yRes), (is_None width), (is_None height);
    try discriminate; reflexivity.
Qed.

Lemma resizing_unrecognised_dtype_witness :
  fst (resizing "in.tif" "out.tif" (VInt 512) (VInt 256) VNone VNone "Int16"
         (mkWorld ∅ []))
  = Exc (UnboundLocalError "outputType").
Proof.
  exact (f_equal fst
           (resizing_unrecognised_dtype "in.tif" "out.tif" (VInt 512) (VInt 256)
              VNone VNone "Int16" (mkWorld ∅ []) eq_refl eq_refl)).
Defined.

(** ** crop *)

(** X9. [crop] performs one warp from [src] to [dst], cut out along the
    vector file, with the same resampling selector 3 as [resizing], when the
    pixel type is one of the four names; for any other name it raises
    [UnboundLocalError] before the library is called, and nothing is written.
    It never prints and changes no file but the one at [dst]. *)
Theorem crop_outcome (src dst vec dtype : string) (w : World) :
  crop src dst vec dtype w
  = match select_outputType dtype with
    | Some ot =>
        (Ok tt,
         mkWorld (<[dst := FProduct (crop_request src dst vec ot)]> (fs w))
                 (log w ++ [crop_request src dst vec ot]))
    | None => (Exc (UnboundLocalError "outputType"), w)
    end
  /\ (forall ot, warp_algorithm (crop_request src dst vec ot) = Some GRA_CubicSpline)
  /\ (forall p, p <> dst -> fs (snd (crop src dst vec dtype w)) !! p = fs w !! p).
Proof.
  unfold crop. destruct (select_outputType dtype) as [ot|]; cbn.
  - repeat split. intros p Hp. by rewrite lookup_insert_ne.
  - repeat split.
Qed.

(** ** save_tiff: what it leaves when it fails, and what it never touches *)

(** X10. With a pixel type that is not one of the four names, [save_tiff]
    raises [UnboundLocalError] for [outputType] before it creates the
    output: whatever the array and the references, no file is written. *)
Theorem save_tiff_unrecognised_dtype (dst_filename : string) (nparray : ndarray)
    (ref_proj ref_geom dtype : string) (nodata_value : Q) (w : World) :
  select_outputType dtype = None ->
  save_tiff dst_filename nparray ref_proj ref_geom dtype nodata_value w
  = (Exc (UnboundLocalError "outputType"), w).
Proof.
  intros Hot. unfold save_tiff, gdal_Open, read_file, bind, ret. rewrite Hot.
  destruct nparray; reflexivity.
Qed.

Lemma save_tiff_unrecognised_dtype_witness :
  save_tiff "out.tif" (Arr2 [[7; 8; 9]]) "ref.tif" "ref.tif" "Int16" 0%Q
    reference_world
  = (Exc (UnboundLocalError "outputType"), reference_world).
Proof.
  exact (save_tiff_unrecognised_dtype "out.tif" (Arr2 [[7; 8; 9]]) "ref.tif"
           "ref.tif" "Int16" 0%Q reference_world eq_refl).
Defined.

(** X11. A reference that does not open is found out too late: with a
    recognised pixel type, when the geometry reference cannot be opened, or
    the geometry reference opens and the projection reference does not,
    [save_tiff] raises [AttributeError] on the [None] it got from [gdal.Open],
    but only after it has created the output. The file at [dst_filename] is
    then the blank raster of the array's size, holding none of the array. *)
Theorem save_tiff_unopenable_reference (dst_filename : string) (nparray : ndarray)
    (ref_proj ref_geom dtype : string) (nodata_value : Q) (ot : GDALDataType)
    (w : World) :
  select_outputType dtype = Some ot ->
  decode (fs w !! ref_geom) = None \/ decode (fs w !! ref_proj) = None ->
  save_tiff dst_filename nparray ref_proj ref_geom dtype nodata_value w
  = (Exc (AttributeError "NoneType"
            (match decode (fs w !! ref_geom) with
             | Some _ => "GetProjectionRef"
             | None => "GetGeoTransform"
             end)),
     mkWorld (<[dst_filename := FRaster (created_raster nparray ot)]> (fs w))
             (log w)).
Proof.
  intros Hot Hnone.
  unfold save_tiff, gdal_Open, read_file, bind, ret. rewrite Hot.
  destruct (decode (fs w !! ref_geom)) as [ge|] eqn:Hge;
    destruct (decode (fs w !! ref_proj)) as [pr|] eqn:Hpr;
    try (destruct Hnone; discriminate);
    destruct nparray; reflexivity.
Qed.

Lemma save_tiff_unopenable_reference_witness :
  fs (snd (save_tiff "out.tif" (Arr2 [[7; 8; 9]]) "ref.tif" "absent.tif" "Float32"
             0%Q reference_world)) !! "out.tif"
  = Some (FRaster (created_raster (Arr2 [[7; 8; 9]]) GDT_Float32)).
Proof.
  rewrite (save_tiff_unopenable_reference "out.tif" (Arr2 [[7; 8; 9]]) "ref.tif"
             "absent.tif" "Float32" 0%Q GDT_Float32 reference_world eq_refl
             (or_introl eq_refl)).
  reflexivity.
Defined.

Lemma writes_only_ret {A} (dst : string) (a : A) : writes_only dst (ret a).
Proof. intros w. by split. Qed.

Lemma writes_only_raise {A} (dst : string) (e : exn) : writes_only dst (@raise A e).
Proof. intros w. by split. Qed.

Lemma writes_only_bind {A B} (dst : string) (m : M A) (k : A -> M B) :
  writes_only dst m -> (forall a, writes_only dst (k a)) -> writes_only dst (bind m k).
Proof.
  intros Hm Hk w. unfold bind. specialize (Hm w).
  destruct (m w) as [[a|e] w1]; cbn [snd] in *; [ | done ].
  destruct Hm as [Hlog Hfs]. destruct (Hk a w1) as [Hlog' Hfs'].
  split; [ congruence | ]. intros p Hp. rewrite Hfs' by done. by apply Hfs.
Qed.

Lemma writes_only_for {A S} (dst : string) (xs : list A) (body : A -> S -> M S) (s : S) :
  (forall x s', writes_only dst (body x s')) -> writes_only dst (for_ xs body s).
Proof.
  intros Hbody. revert s. induction xs as [|x xs IH]; intros s; simpl.
  - apply writes_only_ret.
  - apply writes_only_bind; [ apply Hbody | apply IH ].
Qed.

Lemma writes_only_write_file (dst : string) (f : File) :
  writes_only dst (write_file dst f).
Proof. intros w. split; [ done | ]. intros p Hp. cbn. by apply lookup_insert_ne. Qed.

Lemma writes_only_read_file (dst path : string) : writes_only dst (read_file path).
Proof. intros w. by split. Qed.

Lemma writes_only_on_band (dst : string) (ds : Dataset) (band : Z) (method : string)
    (f : Band -> M Band) :
  (forall b, writes_only dst (f b)) -> writes_only dst (on_band ds band method f).
Proof.
  intros Hf. unfold on_band. destruct (GetRasterBand ds band).
  - apply writes_only_bind; [ apply Hf | intros; apply writes_only_ret ].
  - apply writes_only_raise.
Qed.

Lemma writes_only_py_range (dst : string) (start stop step : Z) :
  writes_only dst (py_range start stop step).
Proof.
  unfold py_range. destruct (step =? 0); [ apply writes_only_raise | ].
  destruct (0 <? step); apply writes_only_ret.
Qed.

(** X12. Whatever its arguments and however it ends, [save_tiff] writes to
    no file but the one at [dst_filename], and nothing to the log: it prints
    nothing and the reference files are left as they are (unless one of them
    is the destination). *)
Theorem save_tiff_writes_only_destination (dst_filename : string)
    (nparray : ndarray) (ref_proj ref_geom dtype : string) (nodata_value : Q) :
  writes_only dst_filename
    (save_tiff dst_filename nparray ref_proj ref_geom dtype nodata_value).
Proof.
  unfold save_tiff, gdal_Open, Driver_Create, FlushCache.
  repeat first
    [ apply writes_only_ret
    | apply writes_only_raise
    | apply writes_only_write_file
    | apply writes_only_read_file
    | apply writes_only_py_range
    | apply writes_only_for; intros
    | apply writes_only_on_band; intros
    | apply writes_only_bind; [ | intros ]
    | progress unfold use_local, method_of, slice_last, SetNoDataValue, WriteArray
    | match goal with
      | |- writes_only _ (let '(_, _) := ?x in _) => destruct x
      | |- writes_only _ (match ?x with _ => _ end) => destruct x
      | |- writes_only _ (if ?x then _ else _) => destruct x
      end ].
Qed.

(** ** asArray: a band that is not there, and what it never does *)

(** X13. For a raster that opens, a band number outside 1 .. [RasterCount]
    (zero and negative numbers included) is not reported as such: the library
    gives [None] for the band and [asArray] raises [AttributeError] on it. *)
Theorem asArray_band_out_of_range (path : string) (band : Z) (w : World)
    (ds : Dataset) :
  decode (fs w !! path) = Some ds ->
  band < 1 \/ RasterCount ds < band ->
  asArray path (Some band) w = (Exc (AttributeError "NoneType" "ReadAsArray"), w).
Proof.
  intros Hopen Hout. unfold asArray, gdal_Open, read_file, bind, ret; simpl.
  rewrite Hopen. unfold GetRasterBand.
  replace ((1 <=? band) && (band <=? RasterCount ds)) with false; [ done | ].
  symmetry. apply andb_false_iff.
  destruct Hout; [ left | right ]; apply Z.leb_gt; lia.
Qed.

Lemma asArray_band_out_of_range_witness :
  let w := mkWorld (<["rgb.tif" := FRaster three_band_raster]> ∅) [] in
  asArray "rgb.tif" (Some 0) w = (Exc (AttributeError "NoneType" "ReadAsArray"), w).
Proof.
  exact (asArray_band_out_of_range "rgb.tif" 0
           (mkWorld (<["rgb.tif" := FRaster three_band_raster]> ∅) [])
           three_band_raster eq_refl (or_introl eq_refl)).
Defined.

(** X14. [asArray] only reads: whatever the path and the band, and whether
    it returns or raises, the files are as before; and it prints only when
    the path does not open, so for a path that opens the log is as before
    too. *)
Theorem asArray_reads_only (path : string) (band : option Z) (w : World) :
  fs (snd (asArray path band w)) = fs w
  /\ (is_Some (decode (fs w !! path)) -> log (snd (asArray path band w)) = log w).
Proof.
  unfold asArray, gdal_Open, read_file, bind, ret; simpl.
  destruct (decode (fs w !! path)) as [ds|].
  - destruct band as [b|].
    + destruct (GetRasterBand ds b); by split.
    + destruct (1 <? RasterCount ds); [ destruct (Dataset_ReadAsArray ds) | ]; by split.
  - split; [ done | ]. by intros [? ?].
Qed.

(** ** buildVRT, vrtToTiff and the removal of the temporary file *)

(** X15. The three steps that [merge] names, [buildVRT] to the temporary
    path, [vrtToTiff] from it to the destination, [os.remove] of it, run in
    that order without failing. When the two paths differ, the temporary file
    is gone afterwards and the destination is the product of the
    materialization; when the caller gives the same path for both, the
    removal deletes the output that was just written. *)
Theorem build_materialize_remove (list_files : list string) (vrt dst : string)
    (w : World) :
  let r := (buildVRT list_files vrt ;;; vrtToTiff vrt dst ;;; os_remove vrt) w in
  fst r = Ok tt
  /\ log (snd r)
     = log w ++ [build_request list_files vrt; materialize_request vrt dst;
                 ECall "os.remove" [VStr vrt] []]
  /\ fs (snd r) !! vrt = None
  /\ (vrt <> dst ->
      fs (snd r) !! dst = Some (FProduct (materialize_request vrt dst)))
  /\ (forall p, p <> vrt -> p <> dst -> fs (snd r) !! p = fs w !! p).
Proof.
  intros r. subst r.
  unfold buildVRT, vrtToTiff, os_remove, library_call, emit, write_file, read_file,
    bind, ret. cbn [fs log].
  destruct (decide (vrt = dst)) as [->|Hne].
  - rewrite lookup_insert_eq. cbn [fst snd fs log].
    rewrite <- !app_assoc. repeat split.
    + apply lookup_delete_eq.
    + done.
    + intros p Hp _. rewrite lookup_delete_ne by done.
      by rewrite !lookup_insert_ne by done.
  - rewrite lookup_insert_ne by done. rewrite lookup_insert_eq. cbn [fst snd fs log].
    rewrite <- !app_assoc. repeat split.
    + apply lookup_delete_eq.
    + intros _. rewrite lookup_delete_ne by done. apply lookup_insert_eq.
    + intros p Hp Hp'. rewrite lookup_delete_ne by done.
      by rewrite !lookup_insert_ne by done.
Qed.

(** ** GetGeoInfo.raster *)

(** X16. For a raster that opens, with its six geotransform coefficients and
    at least one band, [GetGeoInfo.raster] returns the projection, the
    geotransform, the band count, [xRes] and [yRes] as the coefficients 1 and
    5, and the raster's width and height. The width and the height come out
    right for one band and for several alike, because they are read from the
    end of the array's shape, (height, width) or (bands, height, width). *)
Theorem raster_info (w : World) (path : string) (ds : Dataset) :
  decode (fs w !! path) = Some ds ->
  wf_dataset ds ->
  0 < RasterCount ds ->
  length (GeoTransform ds) = 6%nat ->
  exists info,
    raster w path = inr info
    /\ info_Width info = RasterXSize ds
    /\ info_Height info = RasterYSize ds
    /\ info_nBands info = RasterCount ds
    /\ info_Projection info = Projection ds
    /\ info_Geometry info = GeoTransform ds
    /\ GeoTransform ds !! 1%nat = Some (info_xRes info)
    /\ GeoTransform ds !! 5%nat = Some (info_yRes info).
Proof.
  intros Hopen (HX & HY & Hbands) Hcount Hgeo.
  unfold raster. rewrite Hopen.
  destruct (GeoTransform ds) as [|g0 [|g1 [|g2 [|g3 [|g4 [|g5 [|g6 gs]]]]]]] eqn:Hgt;
    try discriminate.
  cbn [py_index lookup list_lookup].
  unfold RasterCount in *.
  destruct (raster_bands ds) as [|b1 bs] eqn:Hbs; [ simpl in Hcount; lia | ].
  assert (Hb1 : length (band_data b1) = Z.to_nat (RasterYSize ds) /\
                length (hd [] (band_data b1)) = Z.to_nat (RasterXSize ds)).
  { apply plane_shape; [ lia | ]. by inversion Hbands. }
  destruct Hb1 as [Hlen Hrow].
  unfold Dataset_ReadAsArray. rewrite Hbs.
  destruct bs as [|b2 bs].
  - unfold shape, py_last. cbn [length Nat.sub drop lookup list_lookup].
    eexists. split; [ reflexivity | ].
    cbn [info_Width info_Height info_nBands info_Projection info_Geometry
         info_xRes info_yRes].
    rewrite ?Hlen, ?Hrow, ?Hgt. repeat split; try lia; reflexivity.
  - unfold shape, py_last. cbn [length Nat.sub drop lookup list_lookup map hd].
    eexists. split; [ reflexivity | ].
    cbn [info_Width info_Height info_nBands info_Projection info_Geometry
         info_xRes info_yRes].
    rewrite ?Hlen, ?Hrow, ?Hgt. repeat split; try lia; reflexivity.
Qed.

Lemma raster_info_witness :
  exists info,
    raster (mkWorld (<["rgb.tif" := FRaster three_band_raster]> ∅) []) "rgb.tif"
    = inr info
    /\ info_Width info = 2 /\ info_Height info = 1 /\ info_nBands info = 3.
Proof.
  assert (Hopen : decode (fs (mkWorld (<["rgb.tif" := FRaster three_band_raster]> ∅) [])
                            !! "rgb.tif") = Some three_band_raster)
    by reflexivity.
  assert (Hcount : 0 < RasterCount three_band_raster) by reflexivity.
  assert (Hgeo : length (GeoTransform three_band_raster) = 6%nat) by reflexivity.
  destruct (raster_info _ "rgb.tif" three_band_raster Hopen three_band_raster_wf
              Hcount Hgeo)
    as (info & Hrun & HW & HH & HB & _).
  exists info. repeat split; assumption.
Defined.

(** ** GetGeoInfo.vector *)

Lemma fold_insert_lookup (g : string -> value) (ks : list string)
    (m0 : gmap string value) (key : string) :
  fold_left (fun m k => <[k := g k]> m) ks m0 !! key
  = if decide (key ∈ ks) then Some (g key) else m0 !! key.
Proof.
  revert m0. induction ks as [|k ks IH]; intros m0; cbn [fold_left].
  - destruct (decide (key ∈ [])) as [Hin|_]; [ by apply elem_of_nil in Hin | done ].
  - rewrite IH. destruct (decide (key ∈ ks)) as [Hin|Hnot].
    + rewrite decide_True by (by right). reflexivity.
    + destruct (decide (key = k)) as [->|Hne].
      * rewrite decide_True by (by left). apply lookup_insert_eq.
      * rewrite decide_False by (intros [?|?]%elem_of_cons; done).
        by apply lookup_insert_ne.
Qed.

Lemma collect_field_names (names : list string) (a n : nat) (acc : list string) :
  (a + n <= length names)%nat ->
  fold_left (fun fields i => fields ++ [nth i names ""]) (seq a n) acc
  = acc ++ take n (drop a names).
Proof.
  revert a acc. induction n as [|n IH]; intros a acc Hlen; simpl.
  - by rewrite take_0, app_nil_r.
  - rewrite IH by lia.
    destruct (lookup_lt_is_Some_2 names a ltac:(lia)) as [x Hx].
    rewrite (drop_S names x a Hx). cbn [take].
    rewrite nth_lookup, Hx. cbn. by rewrite <- app_assoc.
Qed.

Lemma vector_features_entries (fields : list string) (features : list OGRFeature)
    (f : Z) (infos : gmap Z (gmap string value)) :
  Forall (fun ft => is_Some (GetGeometryRef ft)) features ->
  exists infos',
    vector_features fields features f infos = inr infos' /\
    forall k,
      infos' !! k
      = match (if decide (f <= k) then features !! Z.to_nat (k - f) else None) with
        | Some ft => feature_entry fields ft <$> GetGeometryRef ft
        | None => infos !! k
        end.
Proof.
  intros Hgeom. revert f infos.
  induction Hgeom as [|ft rest [geom Hg] _ IH]; intros f infos.
  - exists infos. split; [ reflexivity | ]. intros k.
    case_decide; by rewrite ?lookup_nil.
  - cbn [vector_features]. rewrite Hg.
    destruct (IH (f + 1) (<[f := feature_entry fields ft geom]> infos))
      as (infos' & Hrun & Hlook).
    exists infos'. split; [ exact Hrun | ]. intros k. rewrite Hlook.
    destruct (decide (f + 1 <= k)) as [Hgt|Hle].
    + rewrite decide_True by lia.
      replace (Z.to_nat (k - f)) with (S (Z.to_nat (k - (f + 1)))) by lia.
      cbn [lookup list_lookup].
      destruct (rest !! Z.to_nat (k - (f + 1))); [ done | ].
      apply lookup_insert_ne. lia.
    + destruct (decide (k = f)) as [->|Hne].
      * rewrite decide_True by lia. rewrite Z.sub_diag.
        change (Z.to_nat 0) with 0%nat. cbn [lookup list_lookup].
        rewrite Hg. apply lookup_insert_eq.
      * rewrite decide_False by lia. apply lookup_insert_ne. lia.
Qed.

(** X17. When the file opens and every feature of its first layer has a
    geometry, [GetGeoInfo.vector] returns one dictionary per feature, under
    the keys 0, 1, 2, ... in the order of the layer, and no other key. *)
Theorem vector_entries (vectors : gmap string (list OGRLayer)) (path : string)
    (layer : OGRLayer) (others : list OGRLayer) :
  vectors !! path = Some (layer :: others) ->
  Forall (fun ft => is_Some (GetGeometryRef ft)) (layer_features layer) ->
  exists infos,
    vector vectors path = inr infos
    /\ (forall (k : nat) ft geom,
          layer_features layer !! k = Some ft ->
          GetGeometryRef ft = Some geom ->
          infos !! Z.of_nat k = Some (feature_entry (layer_fields layer) ft geom))
    /\ (forall k, is_Some (infos !! k) ->
                  0 <= k < Z.of_nat (length (layer_features layer))).
Proof.
  intros Hopen Hgeom. unfold vector. rewrite Hopen.
  rewrite collect_field_names by lia. rewrite drop_0, firstn_all. cbn [app].
  destruct (vector_features_entries (layer_fields layer) (layer_features layer) 0 ∅ Hgeom)
    as (infos & Hrun & Hlook).
  exists infos. split; [ exact Hrun | split ].
  - intros k ft geom Hk Hg. rewrite Hlook.
    rewrite decide_True by lia. rewrite Z.sub_0_r, Nat2Z.id, Hk. cbn. by rewrite Hg.
  - intros k [entry Hentry]. rewrite Hlook in Hentry.
    destruct (decide (0 <= k)) as [Hk|Hk].
    + destruct (layer_features layer !! Z.to_nat (k - 0)) as [ft|] eqn:Hft.
      * apply lookup_lt_Some in Hft. lia.
      * by rewrite lookup_empty in Hentry.
    + by rewrite lookup_empty in Hentry.
Qed.

Lemma vector_entries_witness :
  exists infos,
    vector parcels "parcels.shp" = inr infos
    /\ infos !! 1 = Some (feature_entry ["name"; "WKT"] parcel_2
                           (mkGeometry "POINT (3 4)"
                              "{ type: Point, coordinates: [3, 4] }"))
    /\ infos !! 2 = None.
Proof.
  assert (Hopen : parcels !! "parcels.shp"
                  = Some [mkLayer ["name"; "WKT"] [parcel_1; parcel_2]])
    by reflexivity.
  assert (Hgeom : Forall (fun ft => is_Some (GetGeometryRef ft)) [parcel_1; parcel_2])
    by (repeat constructor; by eexists).
  destruct (vector_entries parcels "parcels.shp" _ [] Hopen Hgeom)
    as (infos & Hrun & Hentry & Hkeys).
  exists infos. split; [ exact Hrun | split ].
  - exact (Hentry 1%nat parcel_2 _ eq_refl eq_refl).
  - destruct (infos !! 2) as [entry|] eqn:Hlook; [ | reflexivity ].
    destruct (Hkeys 2 (ex_intro _ entry Hlook)) as [_ Hlt]. cbn in Hlt. lia.
Defined.

(** X18. What a feature's dictionary holds: every field of the layer
    definition with the feature's value for it, and the geometry as text
    under [WKT] and [JSON]; nothing else. A field that is itself called [WKT]
    or [JSON] takes the place of the geometry text under that key. *)
Theorem feature_entry_lookup (fields : list string) (feature : OGRFeature)
    (geom : OGRGeometry) (key : string) :
  feature_entry fields feature geom !! key
  = if decide (key ∈ fields) then Some (GetField fields feature key)
    else if decide (key = "JSON") then Some (VStr (ExportToJson geom))
    else if decide (key = "WKT") then Some (VStr (ExportToWkt geom))
    else None.
Proof.
  unfold feature_entry.
  rewrite (fold_insert_lookup (GetField fields feature)).
  destruct (decide (key ∈ fields)); [ done | ].
  rewrite lookup_insert. destruct (decide ("JSON" = key)) as [<-|Hne].
  - by rewrite decide_True.
  - rewrite decide_False by done.
    rewrite lookup_insert. destruct (decide ("WKT" = key)) as [<-|Hne'].
    + by rewrite decide_True.
    + rewrite decide_False by done. apply lookup_empty.
Qed.

Lemma vector_features_no_geometry (fields : list string)
    (features : list OGRFeature) (f : Z) (infos : gmap Z (gmap string value)) :
  Exists (fun ft => GetGeometryRef ft = None) features ->
  vector_features fields features f infos
  = inl (Raised (AttributeError "NoneType" "ExportToWkt")).
Proof.
  intros Hex. revert f infos.
  induction features as [|ft rest IH]; intros f infos; [ by inversion Hex | ].
  cbn [vector_features]. destruct (GetGeometryRef ft) as [geom|] eqn:Hg; [ | done ].
  apply IH. inversion Hex; subst; [ congruence | done ].
Qed.

(** X19. One feature without a geometry costs the whole result: if any
    feature of the first layer has none, [GetGeoInfo.vector] raises
    [AttributeError] and returns no dictionary, not even for the features
    before it. *)
Theorem vector_feature_without_geometry (vectors : gmap string (list OGRLayer))
    (path : string) (layer : OGRLayer) (others : list OGRLayer) :
  vectors !! path = Some (layer :: others) ->
  Exists (fun ft => GetGeometryRef ft = None) (layer_features layer) ->
  vector vectors path = inl (Raised (AttributeError "NoneType" "ExportToWkt")).
Proof.
  intros Hopen Hex. unfold vector. rewrite Hopen.
  by apply vector_features_no_geometry.
Qed.

Lemma vector_feature_without_geometry_witness :
  vector parcels_broken "parcels.shp"
  = inl (Raised (AttributeError "NoneType" "ExportToWkt")).
Proof.
  assert (Hopen : parcels_broken !! "parcels.shp"
                  = Some [mkLayer ["name"; "WKT"]
                            [parcel_1; mkFeature None [VStr "south"; VInt 9]]])
    by reflexivity.
  apply (vector_feature_without_geometry parcels_broken "parcels.shp" _ [] Hopen).
  right. left. reflexivity.
Defined.

(** The layer of the examples has a field called [WKT]: under that key the
    first feature's dictionary holds the field's value, 7, not the text of
    the geometry. *)
Example parcel_field_shadows_geometry :
  feature_entry ["name"; "WKT"] parcel_1
    (mkGeometry "POINT (1 2)" "{ type: Point, coordinates: [1, 2] }") !! "WKT"
  = Some (VInt 7).
Proof. vm_compute. reflexivity. Qed.
